(** * The observer pattern of [main.py], embedded and verified

    [main.py] declares an abstract [Observer] with two concrete subclasses
    ([CpuController], [TempDisplay]) and an abstract [Subject] with one
    concrete subclass ([CpuSensor]).  The driver registers the two observer
    *classes* (not instances) with one sensor and feeds it readings.

    The embedding keeps what the program touches at run time:
    - the attributes that [setattr] puts on observers (a store keyed by
      object identity, so that an observer registered twice is one object);
    - the sensor's [__dict__], in insertion order, where an attribute
      hides the method of the same name;
    - the console;
    - exceptions, which leave every effect made before them in place.
    A log of the calls made at the two call sites of the source
    ([observer.update(...)] and [self.on_change(...)]) is kept as ghost
    state; no function of the program reads it. *)

From Stdlib Require Import ZArith DecimalString DecimalZ.
From stdpp Require Import base option list strings gmap.

Local Open Scope Z_scope.
Local Open Scope list_scope.

(** ** Objects and values *)

(** The classes of the module that can stand in an observer position. *)
Inductive cls := Observer | CpuController | TempDisplay.

(** An object that can be handed to [register]: a class itself (what the
    driver registers) or an instance of one, told apart by its identity. *)
Inductive obj :=
| ClassObj (c : cls)
| Instance (c : cls) (id : nat).

(** Attribute values: Python [int]s and [str]s. *)
Inductive value :=
| VInt (z : Z)
| VStr (s : string).

(** The function objects created by the [def]s inside the observer classes. *)
Inductive func :=
| Observer_update
| Observer_on_change
| CpuController_on_change
| TempDisplay_on_change.

Inductive type_error :=
| WrongArity (expected given : nat)   (* f() takes n positional arguments but m were given *)
| NotCallable                         (* 'int' object is not callable *)
| NotIterable                         (* cannot unpack / iterate a non-sequence *)
| BadOperand                          (* '>' not supported between 'str' and 'int' *)
| AbstractClass (missing : list string). (* Can't instantiate abstract class *)

Inductive exn :=
| AttributeError (name : string)
| TypeError (why : type_error)
| ValueError.

#[global] Instance cls_eq_dec : EqDecision cls.
Proof. solve_decision. Defined.

#[global] Instance obj_eq_dec : EqDecision obj.
Proof. solve_decision. Defined.

#[global] Instance value_eq_dec : EqDecision value.
Proof. solve_decision. Defined.

#[global] Instance func_eq_dec : EqDecision func.
Proof. solve_decision. Defined.

Definition cls_code (c : cls) : nat :=
  match c with Observer => 0 | CpuController => 1 | TempDisplay => 2 end%nat.

Definition cls_decode (n : nat) : option cls :=
  match n with
  | 0 => Some Observer
  | 1 => Some CpuController
  | 2 => Some TempDisplay
  | _ => None
  end%nat.

#[global] Instance cls_countable : Countable cls.
Proof. apply (inj_countable cls_code cls_decode). by intros []. Defined.

Definition obj_code (o : obj) : cls + cls * nat :=
  match o with ClassObj c => inl c | Instance c n => inr (c, n) end.

Definition obj_decode (x : cls + cls * nat) : obj :=
  match x with inl c => ClassObj c | inr (c, n) => Instance c n end.

#[global] Instance obj_countable : Countable obj.
Proof. apply (inj_countable' obj_code obj_decode). by intros []. Defined.

(** The snapshot handed to [update]: a list of (name, value) pairs. *)
Abbreviation snapshot := (list (string * value)).

(** A positional argument at a call site of the source. *)
Inductive arg :=
| AObj (o : obj)
| AData (d : snapshot).

(** One call made at a call site of the source: the object whose attribute
    is called, the attribute's name, and the arguments written there. *)
Record call := Call { receiver : obj; method : string; args : list arg }.

#[global] Instance arg_eq_dec : EqDecision arg.
Proof. solve_decision. Defined.

#[global] Instance call_eq_dec : EqDecision call.
Proof. solve_decision. Defined.

(** ** Program state *)

(** A [Subject] instance.  [__init__] creates [_observers] first, so the
    object's [__dict__] is [_observers] followed by [vars], the attributes
    assigned later, in insertion order. *)
Record Subject := mkSubject {
  _observers : list obj;
  vars : list (string * value)
}.

(** Attributes put on observers by [setattr], per object. *)
Abbreviation store := (gmap obj (gmap string value)).

Record state := mkState {
  subject : Subject;
  heap : store;
  stdout : string;
  calls : list call
}.

Definition set_subject (f : Subject → Subject) (st : state) : state :=
  mkState (f (subject st)) (heap st) (stdout st) (calls st).

Definition set_heap (f : store → store) (st : state) : state :=
  mkState (subject st) (f (heap st)) (stdout st) (calls st).

Definition set_stdout (f : string → string) (st : state) : state :=
  mkState (subject st) (heap st) (f (stdout st)) (calls st).

Definition set_calls (f : list call → list call) (st : state) : state :=
  mkState (subject st) (heap st) (stdout st) (f (calls st)).

(** ** Statements: state passing with exceptions

    A statement runs from a state and ends normally with a value or by
    raising; either way the state it leaves behind is kept. *)

Inductive result (A : Type) :=
| Ok (a : A)
| Raise (e : exn).

Arguments Ok {A} a.
Arguments Raise {A} e.

Definition M (A : Type) : Type := state → result A * state.

Definition ret {A} (a : A) : M A := λ st, (Ok a, st).

Definition raise {A} (e : exn) : M A := λ st, (Raise e, st).

Definition bind {A B} (m : M A) (k : A → M B) : M B :=
  λ st, match m st with
        | (Ok a, st') => k a st'
        | (Raise e, st') => (Raise e, st')
        end.

Definition gets {A} (f : state → A) : M A := λ st, (Ok (f st), st).

Definition modify (f : state → state) : M unit := λ st, (Ok tt, f st).

Declare Scope py_scope.
Delimit Scope py_scope with py.
Notation "x <- m ;; k" := (bind m (λ x, k))
  (at level 100, m at next level, right associativity) : py_scope.
Notation "m ;; k" := (bind m (λ _, k))
  (at level 100, right associativity) : py_scope.
Local Open Scope py_scope.

(** [for x in l: body x] over a list that the body leaves alone. *)
Fixpoint for_each {A} (l : list A) (body : A → M unit) : M unit :=
  match l with
  | [] => ret tt
  | x :: l' => body x ;; for_each l' body
  end.

(** ** The pieces of Python the program relies on *)

(** The line feed character, as a one-character string. *)
Definition newline : string := String (Ascii.ascii_of_nat 10) "".

(** [print(s)] and [print(s, end='')]. *)
Definition print (s : string) : M unit :=
  modify (set_stdout (λ out, out +:+ s +:+ newline)).

Definition print_end_empty (s : string) : M unit :=
  modify (set_stdout (λ out, out +:+ s)).

(** [str(z)] for an [int]: decimal digits, with "-" in front when negative. *)
Definition str_int (z : Z) : string := NilZero.string_of_int (Z.to_int z).

(** CPython refuses to convert an [int] of more than 4300 decimal digits
    to text. *)
Definition int_max_str_digits : Z := 4300.

Definition printable (z : Z) : bool := (Z.abs z <? 10 ^ int_max_str_digits)%Z.

Arguments printable : simpl never.

(** The text that [f'{v}'] substitutes; for an [int] too long to convert,
    [ValueError]. *)
Definition format (v : value) : M string :=
  match v with
  | VInt z => if printable z then ret (str_int z) else raise ValueError
  | VStr s => ret s
  end.

(** [v > 90]. *)
Definition gt_90 (v : value) : M bool :=
  match v with
  | VInt z => ret (90 <? z)%Z
  | VStr _ => raise (TypeError BadOperand)
  end.

(** [key.startswith("_")]. *)
Definition startswith_underscore (key : string) : bool := String.prefix "_" key.

(** Lookup in an insertion-ordered dictionary. *)
Fixpoint dict_get {V} (key : string) (d : list (string * V)) : option V :=
  match d with
  | [] => None
  | (k, v) :: d' => if decide (k = key) then Some v else dict_get key d'
  end.

(** [d[key] = v]: overwrite in place, or append a new key at the end. *)
Fixpoint dict_set {V} (key : string) (v : V) (d : list (string * V)) : list (string * V) :=
  match d with
  | [] => [(key, v)]
  | (k, w) :: d' => if decide (k = key) then (k, v) :: d' else (k, w) :: dict_set key v d'
  end.

(** [l.remove(x)]: drop the first item equal to [x]; [None] stands for the
    [ValueError] raised when there is none. *)
Fixpoint list_remove (x : obj) (l : list obj) : option (list obj) :=
  match l with
  | [] => None
  | y :: l' => if decide (y = x) then Some l' else (y ::.) <$> list_remove x l'
  end.

(** [self.name(...)], and [sensor.name(...)] in a caller: the name is looked
    up on the instance first, where an attribute assigned on the sensor
    hides the method of the class; the values a sensor holds are not
    callable. *)
Definition call_method {A} (name : string) (method : M A) : M A :=
  s <- gets subject ;;
  match dict_get name (vars s) with
  | Some _ => raise (TypeError NotCallable)
  | None => method
  end.

(** *** Classes *)

(** The method resolution order, up to the last class that defines anything
    without a leading underscore ([ABC] and [object] define nothing else). *)
Definition mro (c : cls) : list cls :=
  match c with
  | Observer => [Observer]
  | CpuController => [CpuController; Observer]
  | TempDisplay => [TempDisplay; Observer]
  end.

(** What each [class] statement binds in the class body. *)
Definition class_body (c : cls) : list (string * func) :=
  match c with
  | Observer => [("update", Observer_update); ("on_change", Observer_on_change)]
  | CpuController => [("on_change", CpuController_on_change)]
  | TempDisplay => [("on_change", TempDisplay_on_change)]
  end.

(** Number of declared parameters, [self] included. *)
Definition arity (f : func) : nat :=
  match f with
  | Observer_update => 2
  | Observer_on_change | CpuController_on_change | TempDisplay_on_change => 1
  end.

(** Functions decorated with [@abstractmethod]. *)
Definition is_abstract (f : func) : bool :=
  match f with
  | Observer_update | Observer_on_change => true
  | CpuController_on_change | TempDisplay_on_change => false
  end.

Fixpoint resolve_static (ks : list cls) (name : string) : option func :=
  match ks with
  | [] => None
  | k :: ks' =>
      match dict_get name (class_body k) with
      | Some f => Some f
      | None => resolve_static ks' name
      end
  end.

(** [__abstractmethods__], fixed when the class is created: the names bound
    along the MRO whose resolution is still an abstract function. *)
Definition resolves_abstract (c : cls) (name : string) : bool :=
  match resolve_static (mro c) name with
  | Some f => is_abstract f
  | None => false
  end.

Definition abstractmethods (c : cls) : list string :=
  filter (λ name, resolves_abstract c name = true)
         (remove_dups (mro c ≫= λ k, (class_body k).*1)).

(** [c()]: refused for a class that still has abstract methods. *)
Definition instantiate (c : cls) (id : nat) : result obj :=
  match abstractmethods c with
  | [] => Ok (Instance c id)
  | missing => Raise (TypeError (AbstractClass missing))
  end.

(** *** Attribute access *)

Definition attrs_of (h : store) (o : obj) : gmap string value :=
  default ∅ (h !! o).

(** [setattr(o, name, v)].  The names come from a snapshot, so none starts
    with an underscore, and the assignment cannot be refused. *)
Definition setattr (o : obj) (name : string) (v : value) : M unit :=
  modify (set_heap (λ h, <[o := <[name := v]> (attrs_of h o)]> h)).

(** What an attribute lookup yields. *)
Inductive attr :=
| AVal (v : value)                 (* a plain value *)
| AFunc (f : func)                 (* a function found on a class, accessed through the class *)
| ABound (self : obj) (f : func).  (* a function found on a class, accessed through an instance *)

(** One class's own [__dict__]: what was assigned after the class was
    created shadows what the class body bound. *)
Definition class_dict_get (h : store) (k : cls) (name : string) : option (value + func) :=
  match attrs_of h (ClassObj k) !! name with
  | Some v => Some (inl v)
  | None => inr <$> dict_get name (class_body k)
  end.

Fixpoint mro_lookup (h : store) (ks : list cls) (name : string) : option (value + func) :=
  match ks with
  | [] => None
  | k :: ks' =>
      match class_dict_get h k name with
      | Some x => Some x
      | None => mro_lookup h ks' name
      end
  end.

(** [o.name] for the names the program reads ([update], [on_change],
    [temp]): through a class, the classes of its MRO in order; through an
    instance, the instance's own attributes first, and a function found on
    its class comes back bound to the instance. *)
Definition lookup_attr (h : store) (o : obj) (name : string) : option attr :=
  match o with
  | ClassObj c =>
      (λ x, match x with inl v => AVal v | inr f => AFunc f end) <$> mro_lookup h (mro c) name
  | Instance c _ =>
      match attrs_of h o !! name with
      | Some v => Some (AVal v)
      | None =>
          (λ x, match x with inl v => AVal v | inr f => ABound o f end)
            <$> mro_lookup h (mro c) name
      end
  end.

Definition getattr (o : obj) (name : string) : M attr :=
  λ st, match lookup_attr (heap st) o name with
        | Some a => (Ok a, st)
        | None => (Raise (AttributeError name), st)
        end.

(** An attribute read where the program needs a plain value ([self.temp]).
    No class body binds [temp], so the read never meets a function (see
    [lookup_attr_temp]). *)
Definition getattr_value (o : obj) (name : string) : M value :=
  a <- getattr o name ;;
  match a with
  | AVal v => ret v
  | AFunc _ | ABound _ _ => raise (TypeError BadOperand)
  end.

(** The ghost log of calls. *)
Definition log_call (o : obj) (name : string) (a : list arg) : M unit :=
  modify (set_calls (λ l, l ++ [Call o name a])).

(** ** The observers *)

Module CpuController.

(** [CpuController.on_change] *)
Definition on_change (self : obj) : M unit :=
  print newline ;;
  print_end_empty "CpuController: " ;;
  temp <- getattr_value self "temp" ;;
  hot <- gt_90 temp ;;
  if hot : bool then print "Panic!" else print "Everything under control".

End CpuController.

Module TempDisplay.

(** [TempDisplay.on_change] *)
Definition on_change (self : obj) : M unit :=
  print_end_empty "Display: " ;;
  temp <- getattr_value self "temp" ;;
  text <- format temp ;;
  print (text +:+ " Deg").

End TempDisplay.

Module Observer.

(** [Observer.on_change]: [pass]. *)
Definition on_change (self : obj) : M unit := ret tt.

(** A function applied to positional arguments that are all objects, which
    is all that the call [self.on_change(self)] can pass.  [Observer.update]
    with two of them would iterate over an object. *)
Definition apply_objs (f : func) (xs : list obj) : M unit :=
  match f, xs with
  | Observer_update, [_; _] => raise (TypeError NotIterable)
  | Observer_on_change, [self] => on_change self
  | CpuController_on_change, [self] => CpuController.on_change self
  | TempDisplay_on_change, [self] => TempDisplay.on_change self
  | _, _ => raise (TypeError (WrongArity (arity f) (length xs)))
  end.

(** Calling what [self.on_change] evaluated to, with the arguments [xs]. *)
Definition call_objs (a : attr) (xs : list obj) : M unit :=
  match a with
  | AVal _ => raise (TypeError NotCallable)
  | AFunc f => apply_objs f xs
  | ABound self f => apply_objs f (self :: xs)
  end.

(** [Observer.update] *)
Definition update (self : obj) (data : snapshot) : M unit :=
  for_each data (λ '(name, val), setattr self name val) ;;
  callee <- getattr self "on_change" ;;
  log_call self "on_change" [AObj self] ;;
  call_objs callee [self].

End Observer.

(** A function applied to the positional arguments [x :: xs] followed by a
    snapshot, which is what the call [observer.update(observer, vars)] can
    pass: at least two arguments, so only [Observer.update] can accept. *)
Definition apply_with_data (f : func) (x : obj) (xs : list obj) (data : snapshot) : M unit :=
  match f, xs with
  | Observer_update, [] => Observer.update x data
  | _, _ => raise (TypeError (WrongArity (arity f) (2 + length xs)))
  end.

(** Calling what [observer.update] evaluated to, with [(x, data)]. *)
Definition call_with_data (a : attr) (x : obj) (data : snapshot) : M unit :=
  match a with
  | AVal _ => raise (TypeError NotCallable)
  | AFunc f => apply_with_data f x [] data
  | ABound self f => apply_with_data f self [x] data
  end.

(** ** The subject *)

Module Subject.

(** [Subject.__init__] *)
Definition __init__ : Subject := mkSubject [] [].

(** [Subject.register] *)
Definition register (observer : obj) : M unit :=
  modify (set_subject (λ s, mkSubject (_observers s ++ [observer]) (vars s))).

(** [Subject.remove] *)
Definition remove (observer : obj) : M unit :=
  s <- gets subject ;;
  match list_remove observer (_observers s) with
  | Some l => modify (set_subject (λ s, mkSubject l (vars s)))
  | None => raise ValueError
  end.

(** The keys of [self.__dict__], in order. *)
Definition dict_keys (s : Subject) : list string := "_observers" :: (vars s).*1.

(** The list that [_get_vars] builds from [self].  [self.__dict__[key]] is
    only evaluated for keys that pass the filter, which [_observers] does
    not. *)
Definition get_vars_of (s : Subject) : snapshot :=
  let all_vars := dict_keys s in
  omap (λ key, if startswith_underscore key then None
               else (key,.) <$> dict_get key (vars s)) all_vars.

(** [Subject._get_vars] *)
Definition _get_vars : M snapshot := gets (λ st, get_vars_of (subject st)).

(** The body of the loop in [notify]: the expression
    [observer.update(observer, self._get_vars())], evaluated left to right. *)
Definition notify_body (observer : obj) : M unit :=
  callee <- getattr observer "update" ;;
  data <- call_method "_get_vars" _get_vars ;;
  log_call observer "update" [AObj observer; AData data] ;;
  call_with_data callee observer data.

(** [Subject.notify].  Python iterates over the list object itself; no
    turn of the loop changes it (see [notify_body_keeps_subject]), so the
    loop runs over the list as it is on entry. *)
Definition notify : M unit :=
  s <- gets subject ;;
  for_each (_observers s) notify_body.

End Subject.

Module CpuSensor.

(** [CpuSensor.__init__]: [super().__init__()]. *)
Definition __init__ : Subject := Subject.__init__.

(** [CpuSensor.change_measurements] *)
Definition change_measurements (temp : value) : M unit :=
  modify (set_subject (λ s, mkSubject (_observers s) (dict_set "temp" temp (vars s)))) ;;
  call_method "notify" Subject.notify.

End CpuSensor.

(** ** The driver *)

(** The interpreter's state when the module body starts. *)
Definition initial (s : Subject) : state := mkState s ∅ "" [].

(** [cpu_sensor = CpuSensor()] and the two [register] calls. *)
Definition driver_setup : state :=
  (call_method "register" (Subject.register (ClassObj TempDisplay))
     (call_method "register" (Subject.register (ClassObj CpuController))
        (initial CpuSensor.__init__)).2).2.

(** One iteration of the reading loop: [sleep] only passes time, and
    [randint(50, 110)] hands over some integer [reading]. *)
Definition driver_iteration (reading : Z) : M unit :=
  call_method "change_measurements" (CpuSensor.change_measurements (VInt reading)).

(** The reading loop, given what [randint] returns at each iteration. *)
Definition driver_loop (readings : list Z) : M unit :=
  for_each readings driver_iteration.

(** ** What the log says *)

(** The calls appended to the log between two states. *)
Definition new_calls (before after : state) : list call :=
  drop (length (calls before)) (calls after).

(** The objects whose [update] was called, in call order. *)
Definition update_receivers (l : list call) : list obj :=
  receiver <$> filter (λ c, method c = "update") l.

(** The two calls of a notification that reaches one observer. *)
Definition calls_of (data : snapshot) (o : obj) : list call :=
  [Call o "update" [AObj o; AData data]; Call o "on_change" [AObj o]].

(** What the copying loop of [update] makes of an object's attributes. *)
Definition assign_all (data : snapshot) (m : gmap string value) : gmap string value :=
  foldl (λ m '(name, val), <[name := val]> m) m data.

(** No assignment has replaced a method of an observer class. *)
Definition methods_intact (h : store) : Prop :=
  ∀ k, attrs_of h (ClassObj k) !! "update" = None ∧
       attrs_of h (ClassObj k) !! "on_change" = None.

(** The subject has no public attribute that would, once copied onto an
    observer, replace one of its methods. *)
Definition plain_vars (s : Subject) : Prop :=
  dict_get "update" (vars s) = None ∧ dict_get "on_change" (vars s) = None.

(** The sensor has no attribute of its own that hides a method it calls on
    itself. *)
Definition unshadowed (s : Subject) : Prop :=
  dict_get "notify" (vars s) = None ∧ dict_get "_get_vars" (vars s) = None.

(** What each observer class prints when it holds the integer [t]. *)
Definition report (c : cls) (t : Z) : string :=
  match c with
  | Observer => ""
  | CpuController =>
      newline +:+ newline +:+ "CpuController: "
        +:+ (if bool_decide (t > 90)%Z then "Panic!" else "Everything under control")
        +:+ newline
  | TempDisplay => "Display: " +:+ str_int t +:+ " Deg" +:+ newline
  end.

(** The class objects inside a registry. *)
Definition is_class (o : obj) : Prop :=
  match o with ClassObj _ => True | Instance _ _ => False end.

Definition class_of (o : obj) : cls :=
  match o with ClassObj c | Instance c _ => c end.

(** The function that [on_change] names in each class, by its MRO. *)
Definition on_change_of (c : cls) : func :=
  match c with
  | Observer => Observer_on_change
  | CpuController => CpuController_on_change
  | TempDisplay => TempDisplay_on_change
  end.

(** What a whole notification prints when every observer is a class with
    intact methods and holds the integer [t]. *)
Definition reports (l : list obj) (t : Z) : string :=
  foldr (λ o out, report (class_of o) t +:+ out) "" l.

(** ** Callers *)

(** The calls a caller can make on a sensor, each one written
    [sensor.method(...)]. *)
Inductive op :=
| OpRegister (o : obj)
| OpRemove (o : obj)
| OpNotify
| OpChange (v : value).

Definition run_op (p : op) : M unit :=
  match p with
  | OpRegister o => call_method "register" (Subject.register o)
  | OpRemove o => call_method "remove" (Subject.remove o)
  | OpNotify => call_method "notify" Subject.notify
  | OpChange v => call_method "change_measurements" (CpuSensor.change_measurements v)
  end.

(** A caller that performs the operations in turn and goes on after an
    exception (the effects made before it stay). *)
Fixpoint run_ops (ops : list op) (st : state) : state :=
  match ops with
  | [] => st
  | p :: ops' => run_ops ops' (run_op p st).2
  end.

(** A sensor whose attributes were only ever assigned by its own methods:
    its [__dict__] is [_observers] alone, or [_observers] and [temp]. *)
Definition sensor_vars (s : Subject) : Prop :=
  vars s = [] ∨ ∃ u, vars s = [("temp", u)].

(** Reading a decimal numeral back. *)
Definition int_of_str (s : string) : option Z :=
  Z.of_int <$> NilZero.int_of_string s.

(** The states the claims are tried on. *)

(** The driver's sensor after one reading of 95. *)
Definition driver_after_95 : state := (driver_iteration 95 driver_setup).2.

(** A sensor on which [TempDisplay] was registered twice, after a reading. *)
Definition registered_twice : state :=
  (CpuSensor.change_measurements (VInt 60)
     (Subject.register (ClassObj TempDisplay)
        (Subject.register (ClassObj TempDisplay) (initial CpuSensor.__init__)).2).2).2.

(** How many times an object is registered. *)
Definition registrations (o : obj) (s : Subject) : nat :=
  length (filter (λ x, x = o) (_observers s)).

(** The attributes of a subject as the data model has them: the registry
    under [_observers], then the others. *)
Definition attributes (s : Subject) : list (string * (list obj + value)) :=
  ("_observers", inl (_observers s)) :: (prod_map id inr <$> vars s).

(** The attributes whose names are not marked private. *)
Definition public_attributes (s : Subject) : list (string * (list obj + value)) :=
  filter (λ p, startswith_underscore p.1 = false) (attributes s).

(** A sensor on which an instance (were there one) has been registered. *)
Definition instance_registered : state :=
  (Subject.register (Instance CpuController 0) (initial CpuSensor.__init__)).2.

(** ** Descriptions of whole runs *)

(** How the notification of one observer class ends when the class reads
    [v] as its [temp], and what it has printed by then. *)
Definition turn_result (c : cls) (v : value) : result unit :=
  match c, v with
  | CpuController, VStr _ => Raise (TypeError BadOperand)
  | TempDisplay, VInt t => if printable t then Ok tt else Raise ValueError
  | _, _ => Ok tt
  end.

Definition turn_output (c : cls) (v : value) : string :=
  match c, v with
  | Observer, _ => ""
  | CpuController, VInt t => report CpuController t
  | CpuController, VStr _ => newline +:+ newline +:+ "CpuController: "
  | TempDisplay, VInt t => if printable t then report TempDisplay t else "Display: "
  | TempDisplay, VStr w => "Display: " +:+ w +:+ " Deg" +:+ newline
  end.

(** A notification of the observers [l], all reading [v]: it goes through
    the list until a turn raises. *)
Fixpoint notification (l : list obj) (v : value) : result unit * string :=
  match l with
  | [] => (Ok tt, "")
  | o :: l' =>
      match turn_result (class_of o) v with
      | Ok _ => ((notification l' v).1, turn_output (class_of o) v +:+ (notification l' v).2)
      | Raise e => (Raise e, turn_output (class_of o) v)
      end
  end.

(** What the reading loop prints for the readings it gets. *)
Definition driver_output (readings : list Z) : string :=
  foldr (λ t out, report CpuController t +:+ report TempDisplay t +:+ out) "" readings.

(** The last pair that a snapshot holds for a name: the one the copying
    loop of [update] leaves on the observer. *)
Fixpoint dict_last (name : string) (data : snapshot) : option value :=
  match data with
  | [] => None
  | (k, v) :: data' =>
      match dict_last name data' with
      | Some w => Some w
      | None => if decide (k = name) then Some v else None
      end
  end.

(** A sensor on which only the base class was registered, after a reading. *)
Definition base_class_registered : state :=
  (CpuSensor.change_measurements (VInt 42)
     (Subject.register (ClassObj Observer) (initial CpuSensor.__init__)).2).2.

(** The driver's sensor after a reading that is not a number. *)
Definition driver_after_text : state :=
  (CpuSensor.change_measurements (VStr "hot") driver_setup).2.

(** A sensor on which the display was registered before the controller. *)
Definition display_first : state :=
  (Subject.register (ClassObj CpuController)
     (Subject.register (ClassObj TempDisplay) (initial CpuSensor.__init__)).2).2.

(** The display class holding an integer of 4301 digits. *)
Definition display_holding_long : state :=
  set_heap (λ _, {[ClassObj TempDisplay := {["temp" := VInt (10 ^ 4300)]}]})
    (initial CpuSensor.__init__).

(** A sensor that holds an attribute of its own named [notify]. *)
Definition notify_shadowed : state :=
  initial (mkSubject [] [("notify", VInt 5)]).

(** ** Frame properties *)

(** A statement leaves the component [f] of the state alone, however it ends. *)
Definition keeps {A B} (f : state → B) (m : M A) : Prop :=
  ∀ st, f (m st).2 = f st.

Lemma keeps_ret {A B} (f : state → B) (a : A) : keeps f (ret a).
Proof. by intros st. Qed.

Lemma keeps_raise {A B} (f : state → B) e : keeps f (@raise A e).
Proof. by intros st. Qed.

Lemma keeps_gets {A B} (f : state → B) (g : state → A) : keeps f (gets g).
Proof. by intros st. Qed.

Lemma keeps_bind {A B C} (f : state → C) (m : M A) (k : A → M B) :
  keeps f m → (∀ a, keeps f (k a)) → keeps f (bind m k).
Proof.
  intros Hm Hk st. unfold bind. specialize (Hm st).
  destruct (m st) as [[a|e] st1]; simpl in *; [|done].
  by rewrite Hk.
Qed.

Lemma keeps_modify {B} (f : state → B) (g : state → state) :
  (∀ st, f (g st) = f st) → keeps f (modify g).
Proof. intros H st. apply H. Qed.

Lemma keeps_for_each {A B} (f : state → B) (l : list A) (body : A → M unit) :
  (∀ x, keeps f (body x)) → keeps f (for_each l body).
Proof.
  intros Hb. induction l as [|x l IH]; simpl.
  - apply keeps_ret.
  - by apply keeps_bind.
Qed.

Lemma keeps_getattr {B} (f : state → B) o name : keeps f (getattr o name).
Proof. intros st. unfold getattr. by destruct (lookup_attr _ _ _). Qed.

Create HintDb frame discriminated.

#[global] Hint Resolve keeps_ret keeps_raise keeps_gets keeps_getattr : frame.

Ltac frame :=
  repeat first
    [ progress intros
    | solve [eauto with frame]
    | apply keeps_bind
    | apply keeps_for_each
    | apply keeps_modify; done
    | match goal with
      | |- keeps _ (match ?x with _ => _ end) => destruct x
      | |- keeps _ (if ?x then _ else _) => destruct x
      | |- keeps _ (let '(_, _) := ?x in _) => destruct x
      end ].

Lemma keeps_getattr_value {B} (f : state → B) o name : keeps f (getattr_value o name).
Proof. unfold getattr_value. frame. Qed.

Lemma keeps_gt_90 {B} (f : state → B) v : keeps f (gt_90 v).
Proof. unfold gt_90. frame. Qed.

Lemma keeps_format {B} (f : state → B) v : keeps f (format v).
Proof. unfold format. frame. Qed.

Lemma keeps_call_method {A B} (f : state → B) name (m : M A) :
  keeps f m → keeps f (call_method name m).
Proof. intros Hm. unfold call_method. frame. Qed.

#[global] Hint Resolve keeps_getattr_value keeps_gt_90 keeps_format keeps_call_method : frame.

(** The [on_change] bodies only write to the console. *)
Lemma on_change_keeps {B} (f : state → B) g self :
  (∀ h st, f (set_stdout h st) = f st) →
  keeps f (Observer.apply_objs g self).
Proof.
  intros Hf.
  assert (∀ s, keeps f (print s)) by (intros; apply keeps_modify; auto).
  assert (∀ s, keeps f (print_end_empty s)) by (intros; apply keeps_modify; auto).
  unfold Observer.apply_objs, Observer.on_change, CpuController.on_change,
    TempDisplay.on_change.
  destruct g, self as [|? [|? [|? ?]]]; frame.
Qed.

Lemma setattr_loop_keeps {B} (f : state → B) self (data : snapshot) :
  (∀ h st, f (set_heap h st) = f st) →
  keeps f (for_each data (λ '(name, val), setattr self name val)).
Proof.
  intros Hf. apply keeps_for_each. intros [name val].
  apply keeps_modify. auto.
Qed.

(** How a sequence of two statements can end. *)
Lemma bind_inv {A B} (m : M A) (k : A → M B) st r st' :
  bind m k st = (r, st') →
  (∃ a st1, m st = (Ok a, st1) ∧ k a st1 = (r, st'))
  ∨ (∃ e, m st = (Raise e, st') ∧ r = Raise e).
Proof.
  unfold bind. destruct (m st) as [[a|e] st1]; intros H.
  - left. eauto.
  - right. exists e. by simplify_eq.
Qed.

Lemma keeps_eq {A B} (f : state → B) (m : M A) st r st' :
  keeps f m → m st = (r, st') → f st' = f st.
Proof. intros Hk Hm. specialize (Hk st). by rewrite Hm in Hk. Qed.

Lemma call_objs_keeps {B} (f : state → B) a xs :
  (∀ h st, f (set_stdout h st) = f st) →
  keeps f (Observer.call_objs a xs).
Proof.
  intros Hf. destruct a; simpl; [apply keeps_raise| |]; by apply on_change_keeps.
Qed.

(** [update] appends its one call to the log unless the lookup of
    [on_change] fails; it leaves the subject alone. *)
Lemma update_log self data st r st' :
  Observer.update self data st = (r, st') →
  calls st' = calls st ++ [Call self "on_change" [AObj self]]
  ∨ (calls st' = calls st ∧ ∃ e, r = Raise e).
Proof.
  unfold Observer.update. intros H.
  apply bind_inv in H as [([] & st1 & H1 & H)|(e & H1 & ->)].
  2:{ right. split; [|eauto].
      eapply keeps_eq; [|done]. by apply setattr_loop_keeps. }
  assert (calls st1 = calls st) as <-.
  { eapply keeps_eq; [|done]. by apply setattr_loop_keeps. }
  apply bind_inv in H as [(a & st2 & H2 & H)|(e & H2 & ->)].
  2:{ right. split; [|eauto]. eapply keeps_eq; [|done]. apply keeps_getattr. }
  assert (calls st2 = calls st1) as <-.
  { eapply keeps_eq; [|done]. apply keeps_getattr. }
  left. apply bind_inv in H as [([] & st3 & H3 & H)|(e & H3 & _)];
    [|discriminate].
  unfold log_call, modify in H3. simplify_eq.
  eapply (keeps_eq calls) in H; [|by apply call_objs_keeps]. done.
Qed.

Lemma update_keeps_subject self data : keeps subject (Observer.update self data).
Proof.
  unfold Observer.update, log_call.
  apply keeps_bind; [by apply setattr_loop_keeps|intros _].
  frame. by apply call_objs_keeps.
Qed.

Lemma notify_body_keeps_subject o : keeps subject (Subject.notify_body o).
Proof.
  pose proof update_keeps_subject.
  unfold Subject.notify_body, Subject._get_vars, log_call, call_with_data,
    apply_with_data.
  frame.
Qed.

Lemma call_method_run {A} name (m : M A) st :
  call_method name m st
  = match dict_get name (vars (subject st)) with
    | Some _ => (Raise (TypeError NotCallable), st)
    | None => m st
    end.
Proof.
  unfold call_method, bind, gets. by destruct (dict_get name (vars (subject st))).
Qed.

(** One turn of the loop in [notify], step by step. *)
Lemma notify_body_run o st :
  Subject.notify_body o st
  = match lookup_attr (heap st) o "update" with
    | None => (Raise (AttributeError "update"), st)
    | Some callee =>
        match dict_get "_get_vars" (vars (subject st)) with
        | Some _ => (Raise (TypeError NotCallable), st)
        | None =>
            call_with_data callee o (Subject.get_vars_of (subject st))
              (set_calls (λ l, l ++ [Call o "update"
                 [AObj o; AData (Subject.get_vars_of (subject st))]]) st)
        end
    end.
Proof.
  unfold Subject.notify_body, bind at 1, getattr.
  destruct (lookup_attr (heap st) o "update") as [a|]; [|done].
  unfold bind at 1. rewrite call_method_run.
  by destruct (dict_get "_get_vars" (vars (subject st))).
Qed.

(** One turn of the loop in [notify]: the calls it logs are those of a
    complete notification of [o], or a prefix of them if it raises. *)
Lemma notify_body_log o st r st' :
  Subject.notify_body o st = (r, st') →
  ∃ part,
    calls st' = calls st ++ part ∧
    match r with
    | Ok _ => part = calls_of (Subject.get_vars_of (subject st)) o
    | Raise _ => part `prefix_of` calls_of (Subject.get_vars_of (subject st)) o
    end.
Proof.
  rewrite notify_body_run. intros H.
  assert (∀ e, (Raise e, st) = (r, st') → ∃ part, calls st' = calls st ++ part ∧
            match r with
            | Ok _ => part = calls_of (Subject.get_vars_of (subject st)) o
            | Raise _ => part `prefix_of` calls_of (Subject.get_vars_of (subject st)) o
            end) as Hearly.
  { intros e [= <- <-]. exists []. rewrite app_nil_r. split; [done|apply prefix_nil]. }
  destruct (lookup_attr (heap st) o "update") as [a|]; [|by eapply Hearly].
  destruct (dict_get "_get_vars" (vars (subject st))); [by eapply Hearly|].
  set (data := Subject.get_vars_of (subject st)) in *.
  set (st1 := set_calls _ st) in H.
  assert (∀ e, (Raise e, st1) = (r, st') → ∃ part, calls st' = calls st ++ part ∧
            match r with
            | Ok _ => part = calls_of data o
            | Raise _ => part `prefix_of` calls_of data o
            end) as Hraise.
  { intros e [= <- <-]. exists [Call o "update" [AObj o; AData data]].
    split; [done|]. by exists [Call o "on_change" [AObj o]]. }
  destruct a as [v|f|self f]; simpl in H;
    [by eapply Hraise| |destruct f; by eapply Hraise].
  destruct f; try by eapply Hraise. simpl in H.
  destruct (update_log _ _ _ _ _ H) as [Hc|[Hc [e ->]]].
  - exists (calls_of data o). split.
    + rewrite Hc. unfold st1. simpl. by rewrite <- app_assoc.
    + destruct r; [done|]. done.
  - exists [Call o "update" [AObj o; AData data]]. split; [by rewrite Hc|].
    by exists [Call o "on_change" [AObj o]].
Qed.

(** The loop of [notify] over any list of observers: it notifies a first
    part of the list completely and, if it raises, stops inside the
    notification of the next one. *)
Lemma notify_loop_log l st r st' :
  for_each l Subject.notify_body st = (r, st') →
  subject st' = subject st ∧
  ∃ served rest part,
    l = served ++ rest ∧
    calls st' = calls st ++ (served ≫= calls_of (Subject.get_vars_of (subject st))) ++ part ∧
    match r with
    | Ok _ => rest = [] ∧ part = []
    | Raise _ => ∃ o rest', rest = o :: rest' ∧
                  part `prefix_of` calls_of (Subject.get_vars_of (subject st)) o
    end.
Proof.
  revert st. induction l as [|o l IH]; intros st H; simpl in H.
  - injection H as <- <-. split; [done|]. exists [], [], []. simpl.
    by rewrite app_nil_r.
  - apply bind_inv in H as [([] & st1 & H1 & H)|(e & H1 & ->)].
    + pose proof (keeps_eq subject _ _ _ _ (notify_body_keeps_subject o) H1) as Hs.
      apply notify_body_log in H1 as (p1 & Hc1 & ->).
      apply IH in H as (Hs' & served & rest & part & -> & Hc & Hr).
      rewrite Hs in Hs', Hc, Hr. split; [done|].
      exists (o :: served), rest, part. split; [done|]. split; [|done].
      rewrite Hc, Hc1. simpl. by rewrite <- !app_assoc.
    + pose proof (keeps_eq subject _ _ _ _ (notify_body_keeps_subject o) H1) as Hs.
      apply notify_body_log in H1 as (p1 & Hc1 & Hp).
      split; [done|]. exists [], (o :: l), p1. simpl.
      split; [done|]. split; [done|]. by exists o, l.
Qed.

Lemma notify_log st r st' :
  Subject.notify st = (r, st') →
  subject st' = subject st ∧
  ∃ served rest part,
    _observers (subject st) = served ++ rest ∧
    calls st' = calls st ++ (served ≫= calls_of (Subject.get_vars_of (subject st))) ++ part ∧
    match r with
    | Ok _ => rest = [] ∧ part = []
    | Raise _ => ∃ o rest', rest = o :: rest' ∧
                  part `prefix_of` calls_of (Subject.get_vars_of (subject st)) o
    end.
Proof.
  unfold Subject.notify, bind, gets. intros H.
  by apply notify_loop_log in H.
Qed.

Lemma new_calls_app st st' new :
  calls st' = calls st ++ new → new_calls st st' = new.
Proof. intros H. unfold new_calls. by rewrite H, drop_app_length. Qed.

Lemma update_receivers_app l k :
  update_receivers (l ++ k) = update_receivers l ++ update_receivers k.
Proof. unfold update_receivers. by rewrite filter_app, fmap_app. Qed.

Lemma update_receivers_served data served :
  update_receivers (served ≫= calls_of data) = served.
Proof.
  induction served as [|o served IH]; [done|].
  change ((o :: served) ≫= calls_of data)
    with (calls_of data o ++ (served ≫= calls_of data)).
  rewrite update_receivers_app, IH. done.
Qed.

Lemma update_receivers_part data o part :
  part `prefix_of` calls_of data o →
  update_receivers part = [] ∨ update_receivers part = [o].
Proof.
  intros [k Hk]. unfold calls_of in Hk.
  destruct part as [|c1 [|c2 [|c3 part]]]; simplify_eq/=; auto.
Qed.

(** ** What [update] writes *)

Lemma attrs_of_insert h o m o' :
  attrs_of (<[o := m]> h) o' = if decide (o = o') then m else attrs_of h o'.
Proof.
  unfold attrs_of. rewrite lookup_insert. by destruct (decide (o = o')).
Qed.

(** The copying loop of [update] always ends normally; it assigns the pairs
    of the snapshot in order on [self] and touches nothing else. *)
Lemma setattr_loop_spec self (data : snapshot) st :
  ∃ st', for_each data (λ '(name, val), setattr self name val) st = (Ok tt, st') ∧
    subject st' = subject st ∧ stdout st' = stdout st ∧ calls st' = calls st ∧
    attrs_of (heap st') self = assign_all data (attrs_of (heap st) self) ∧
    ∀ o, o ≠ self → attrs_of (heap st') o = attrs_of (heap st) o.
Proof.
  revert st. induction data as [|[name val] data IH]; intros st; simpl.
  - by exists st.
  - unfold bind, setattr at 1, modify.
    destruct (IH (set_heap (λ h, <[self := <[name := val]> (attrs_of h self)]> h) st))
      as (st' & -> & Hs & Ho & Hc & Hself & Hother).
    exists st'. repeat split; try done.
    + rewrite Hself. simpl. rewrite attrs_of_insert. by rewrite decide_True.
    + intros o Hne. rewrite Hother by done. simpl.
      rewrite attrs_of_insert. by rewrite decide_False.
Qed.

Lemma assign_all_lookup_notin (data : snapshot) m name :
  name ∉ data.*1 → assign_all data m !! name = m !! name.
Proof.
  revert m. induction data as [|[k w] data IH]; intros m Hn; simpl; [done|].
  rewrite fmap_cons, not_elem_of_cons in Hn. destruct Hn as [Hne Hn].
  rewrite IH by done. by rewrite lookup_insert_ne.
Qed.

(** When every pair of the snapshot that carries [name] carries [v], the
    copying loop can only leave [v] under [name]. *)
Lemma assign_all_lookup_agree (data : snapshot) m name v :
  (∀ w, (name, w) ∈ data → w = v) →
  m !! name = Some v ∨ name ∈ data.*1 →
  assign_all data m !! name = Some v.
Proof.
  revert m. induction data as [|[k w] data IH]; intros m Hall Hin; simpl.
  - destruct Hin as [?|Hin]; [done|]. by apply elem_of_nil in Hin.
  - apply IH.
    + intros w' Hw'. apply Hall. by right.
    + destruct (decide (k = name)) as [->|Hne].
      * left. rewrite lookup_insert_eq. f_equal. apply Hall. by left.
      * destruct Hin as [Hm|Hin].
        -- left. by rewrite lookup_insert_ne.
        -- right. rewrite fmap_cons in Hin. apply elem_of_cons in Hin as [?|?];
             [by simplify_eq/=|done].
Qed.

Lemma update_heap self data st r st' :
  Observer.update self data st = (r, st') →
  attrs_of (heap st') self = assign_all data (attrs_of (heap st) self) ∧
  ∀ o, o ≠ self → attrs_of (heap st') o = attrs_of (heap st) o.
Proof.
  unfold Observer.update. intros H.
  destruct (setattr_loop_spec self data st) as (st1 & H1 & _ & _ & _ & Hself & Hother).
  unfold bind at 1 in H. rewrite H1 in H.
  assert (heap st' = heap st1) as ->; [|done].
  eapply (keeps_eq heap); [|exact H].
  unfold log_call. frame. by apply call_objs_keeps.
Qed.

(** How one turn of the loop in [notify] can go: either it raises before
    entering [update], with no effect on the store, or [observer.update] is
    the function [Observer.update], reached through a class, and runs. *)
Lemma notify_body_inv o st r st' :
  Subject.notify_body o st = (r, st') →
  (heap st' = heap st ∧ stdout st' = stdout st ∧ ∃ e, r = Raise e)
  ∨ (lookup_attr (heap st) o "update" = Some (AFunc Observer_update) ∧
     Observer.update o (Subject.get_vars_of (subject st))
       (set_calls (λ l, l ++ [Call o "update"
                                [AObj o; AData (Subject.get_vars_of (subject st))]]) st)
     = (r, st')).
Proof.
  rewrite notify_body_run.
  destruct (lookup_attr (heap st) o "update") as [a|];
    [|intros [= <- <-]; left; eauto].
  destruct (dict_get "_get_vars" (vars (subject st)));
    [intros [= <- <-]; left; eauto|].
  destruct a as [v|[]|self []]; simpl; try (intros [= <- <-]; left; eauto).
  intros H. right. done.
Qed.

Lemma notify_body_heap o st r st' :
  Subject.notify_body o st = (r, st') →
  (∀ o', o' ≠ o → attrs_of (heap st') o' = attrs_of (heap st) o') ∧
  (attrs_of (heap st') o = attrs_of (heap st) o
   ∨ attrs_of (heap st') o
     = assign_all (Subject.get_vars_of (subject st)) (attrs_of (heap st) o)) ∧
  (r = Ok tt →
   attrs_of (heap st') o
   = assign_all (Subject.get_vars_of (subject st)) (attrs_of (heap st) o)).
Proof.
  intros H. apply notify_body_inv in H as [(Hh & _ & e & ->)|(_ & H)].
  - rewrite Hh. split; [done|]. split; [by left|done].
  - apply update_heap in H as [Hself Hother]. simpl in *. auto.
Qed.

(** ** Dictionaries and snapshots *)

Lemma dict_get_Some_elem {V} key (d : list (string * V)) v :
  dict_get key d = Some v → (key, v) ∈ d.
Proof.
  induction d as [|[k w] d IH]; simpl; [done|].
  destruct (decide (k = key)) as [->|Hne].
  - intros [= ->]. by left.
  - intros H. right. auto.
Qed.

Lemma dict_get_is_Some {V} key (d : list (string * V)) :
  key ∈ d.*1 → is_Some (dict_get key d).
Proof.
  induction d as [|[k w] d IH]; simpl.
  - by intros ?%elem_of_nil.
  - intros [->|Hin]%elem_of_cons.
    + rewrite decide_True by done. eauto.
    + destruct (decide (k = key)); eauto.
Qed.

Lemma dict_get_set_eq {V} key (v : V) d : dict_get key (dict_set key v d) = Some v.
Proof.
  induction d as [|[k w] d IH]; simpl.
  - by rewrite decide_True.
  - destruct (decide (k = key)) as [->|Hne]; simpl.
    + by rewrite decide_True.
    + by rewrite decide_False.
Qed.

Lemma dict_get_set_ne {V} key key' (v : V) d :
  key ≠ key' → dict_get key' (dict_set key v d) = dict_get key' d.
Proof.
  intros Hne. induction d as [|[k w] d IH]; simpl.
  - by rewrite decide_False.
  - destruct (decide (k = key)) as [->|Hk]; simpl.
    + by rewrite !decide_False.
    + destruct (decide (k = key')); [done|]. apply IH.
Qed.

Lemma dict_set_keys_NoDup {V} key (v : V) d :
  NoDup d.*1 → NoDup (dict_set key v d).*1.
Proof.
  induction d as [|[k w] d IH]; simpl; intros Hnd.
  - apply NoDup_singleton.
  - apply NoDup_cons in Hnd as [Hk Hnd].
    destruct (decide (k = key)) as [->|Hne]; simpl.
    + by apply NoDup_cons.
    + apply NoDup_cons. split; [|auto].
      intros Hin. apply dict_get_is_Some in Hin as [x Hx].
      rewrite dict_get_set_ne in Hx by done.
      apply dict_get_Some_elem in Hx. apply Hk.
      apply list_elem_of_fmap. by exists (k, x).
Qed.

(** The pairs of a snapshot are the public keys with the values the
    dictionary holds for them. *)
Lemma get_vars_of_elem s key v :
  (key, v) ∈ Subject.get_vars_of s ↔
  startswith_underscore key = false ∧ dict_get key (vars s) = Some v.
Proof.
  unfold Subject.get_vars_of, Subject.dict_keys.
  rewrite list_elem_of_omap. split.
  - intros (k & Hk & Hf). destruct (startswith_underscore k) eqn:Hp; [done|].
    destruct (dict_get k (vars s)) as [w|] eqn:Hg; simplify_eq/=. done.
  - intros [Hp Hg]. exists key. rewrite Hp, Hg. split; [|done].
    right. apply dict_get_Some_elem in Hg.
    apply list_elem_of_fmap. by exists (key, v).
Qed.

Lemma lookup_attr_own h o name v :
  attrs_of h o !! name = Some v → lookup_attr h o name = Some (AVal v).
Proof.
  intros H. destruct o as [c|c n]; simpl.
  - destruct c; simpl; unfold class_dict_get; by rewrite H.
  - by rewrite H.
Qed.

(** ** Calls whose arguments do not fit *)

Lemma apply_objs_arity f xs st :
  length xs ≠ arity f →
  Observer.apply_objs f xs st
  = (Raise (TypeError (WrongArity (arity f) (length xs))), st).
Proof. destruct f, xs as [|? [|? [|? ?]]]; done. Qed.

Lemma apply_with_data_arity f x xs data st :
  (2 + length xs)%nat ≠ arity f →
  apply_with_data f x xs data st
  = (Raise (TypeError (WrongArity (arity f) (2 + length xs))), st).
Proof. destruct f, xs; done. Qed.

(** ** The [on_change] bodies *)

Lemma append_empty_r (a : string) : a +:+ "" = a.
Proof.
  induction a as [|x a IH]; [done|].
  change (String x (a +:+ "") = String x a). by f_equal.
Qed.

Lemma append_assoc (a b c : string) : (a +:+ b) +:+ c = a +:+ (b +:+ c).
Proof.
  induction a as [|x a IH]; [done|].
  change (String x ((a +:+ b) +:+ c) = String x (a +:+ b +:+ c)). by f_equal.
Qed.

(** No class body binds [temp], so [self.temp] is a plain value whenever it
    is there at all. *)
Lemma lookup_attr_temp h o :
  lookup_attr h o "temp" = None ∨ ∃ v, lookup_attr h o "temp" = Some (AVal v).
Proof.
  destruct o as [c|c n]; simpl.
  - destruct c; simpl; unfold class_dict_get;
      repeat (destruct (attrs_of h _ !! "temp"); simpl; eauto).
  - destruct (attrs_of h _ !! "temp"); [eauto|].
    destruct c; simpl; unfold class_dict_get;
      repeat (destruct (attrs_of h _ !! "temp"); simpl; eauto).
Qed.

Lemma getattr_value_val o name v st :
  lookup_attr (heap st) o name = Some (AVal v) →
  getattr_value o name st = (Ok v, st).
Proof. intros H. unfold getattr_value, bind, getattr. by rewrite H. Qed.

Lemma CpuController_on_change_int self t st :
  lookup_attr (heap st) self "temp" = Some (AVal (VInt t)) →
  CpuController.on_change self st
  = (Ok tt, set_stdout (λ out, out +:+ report CpuController t) st).
Proof.
  intros H. unfold CpuController.on_change, bind at 1 2. simpl.
  unfold bind at 1. rewrite getattr_value_val with (v := VInt t) by done.
  unfold bind, gt_90, ret, print, modify, set_stdout. simpl.
  destruct (Z.ltb_spec 90 t).
  - rewrite bool_decide_eq_true_2 by lia. simpl.
    f_equal. f_equal. by rewrite !append_assoc.
  - rewrite bool_decide_eq_false_2 by lia. simpl.
    f_equal. f_equal. by rewrite !append_assoc.
Qed.

Lemma TempDisplay_on_change_run self v st :
  lookup_attr (heap st) self "temp" = Some (AVal v) →
  TempDisplay.on_change self st
  = match format v (set_stdout (λ out, out +:+ "Display: ") st) with
    | (Ok text, st1) => (Ok tt, set_stdout (λ out, out +:+ text +:+ " Deg" +:+ newline) st1)
    | (Raise e, st1) => (Raise e, st1)
    end.
Proof.
  intros H. unfold TempDisplay.on_change, bind at 1. simpl.
  unfold bind at 1. rewrite getattr_value_val with (v := v) by done.
  unfold bind at 1. destruct (format v _) as [[text|e] st1]; [|done].
  unfold print, modify, set_stdout. simpl. by rewrite append_assoc.
Qed.

Lemma TempDisplay_on_change_int self t st :
  lookup_attr (heap st) self "temp" = Some (AVal (VInt t)) →
  printable t = true →
  TempDisplay.on_change self st
  = (Ok tt, set_stdout (λ out, out +:+ report TempDisplay t) st).
Proof.
  intros H Hp. rewrite (TempDisplay_on_change_run self (VInt t) st H).
  unfold format. rewrite Hp. unfold ret, set_stdout, report. simpl.
  f_equal. f_equal. by rewrite !append_assoc.
Qed.

Lemma TempDisplay_on_change_long self t st :
  lookup_attr (heap st) self "temp" = Some (AVal (VInt t)) →
  printable t = false →
  TempDisplay.on_change self st
  = (Raise ValueError, set_stdout (λ out, out +:+ "Display: ") st).
Proof.
  intros H Hp. rewrite (TempDisplay_on_change_run self (VInt t) st H).
  unfold format. by rewrite Hp.
Qed.

Lemma TempDisplay_on_change_text self w st :
  lookup_attr (heap st) self "temp" = Some (AVal (VStr w)) →
  TempDisplay.on_change self st
  = (Ok tt, set_stdout (λ out, out +:+ "Display: " +:+ w +:+ " Deg" +:+ newline) st).
Proof.
  intros H. rewrite (TempDisplay_on_change_run self (VStr w) st H).
  unfold format, ret, set_stdout. simpl.
  f_equal. f_equal. by rewrite !append_assoc.
Qed.

(** ** Notifying observer classes whose methods are intact *)

Lemma lookup_attr_update_intact h c :
  methods_intact h → lookup_attr h (ClassObj c) "update" = Some (AFunc Observer_update).
Proof.
  intros Hi. destruct c; simpl; unfold class_dict_get;
    repeat (rewrite (proj1 (Hi _)); simpl); done.
Qed.

Lemma lookup_attr_on_change_intact h c :
  methods_intact h → lookup_attr h (ClassObj c) "on_change" = Some (AFunc (on_change_of c)).
Proof.
  intros Hi. destruct c; simpl; unfold class_dict_get;
    repeat (rewrite (proj2 (Hi _)); simpl); done.
Qed.

Lemma snapshot_names_plain s name :
  dict_get name (vars s) = None → name ∉ (Subject.get_vars_of s).*1.
Proof.
  intros Hn Hin. apply list_elem_of_fmap in Hin as ([k v] & -> & Hin).
  apply get_vars_of_elem in Hin as [_ Hg]. simpl in Hn. congruence.
Qed.

Lemma snapshot_temp s v :
  dict_get "temp" (vars s) = Some v →
  (∀ w, ("temp", w) ∈ Subject.get_vars_of s → w = v) ∧
  "temp" ∈ (Subject.get_vars_of s).*1.
Proof.
  intros Hg. split.
  - intros w Hw. apply get_vars_of_elem in Hw as [_ Hw]. congruence.
  - apply list_elem_of_fmap. exists ("temp", v). split; [done|].
    by apply get_vars_of_elem.
Qed.

Lemma CpuController_on_change_str self w st :
  lookup_attr (heap st) self "temp" = Some (AVal (VStr w)) →
  CpuController.on_change self st
  = (Raise (TypeError BadOperand),
     set_stdout (λ out, out +:+ newline +:+ newline +:+ "CpuController: ") st).
Proof.
  intros H. unfold CpuController.on_change, bind at 1 2. simpl.
  unfold bind at 1. rewrite getattr_value_val with (v := VStr w) by done.
  unfold bind, gt_90, raise, set_stdout. simpl.
  f_equal. f_equal. by rewrite !append_assoc.
Qed.

(** One turn on an observer class, for any reading. *)
Lemma notify_body_class_run c st v :
  methods_intact (heap st) →
  plain_vars (subject st) →
  dict_get "_get_vars" (vars (subject st)) = None →
  dict_get "temp" (vars (subject st)) = Some v →
  ∃ st', Subject.notify_body (ClassObj c) st = (turn_result c v, st') ∧
    methods_intact (heap st') ∧
    stdout st' = stdout st +:+ turn_output c v.
Proof.
  intros Hi [Hpu Hpo] Hg Ht.
  set (data := Subject.get_vars_of (subject st)).
  rewrite notify_body_run, lookup_attr_update_intact, Hg by done.
  fold data. set (st1 := set_calls _ st). simpl.
  unfold Observer.update, bind at 1.
  destruct (setattr_loop_spec (ClassObj c) data st1)
    as (st2 & -> & Hs & Ho & Hc & Hself & Hother).
  assert (methods_intact (heap st2)) as Hi2.
  { intros k. destruct (decide (ClassObj k = ClassObj c)) as [->|Hne].
    - rewrite Hself, !assign_all_lookup_notin
        by (by apply snapshot_names_plain). apply Hi.
    - rewrite Hother by done. apply Hi. }
  destruct (snapshot_temp _ _ Ht) as [Hagree Hin].
  assert (lookup_attr (heap st2) (ClassObj c) "temp" = Some (AVal v)) as Htemp.
  { apply lookup_attr_own. rewrite Hself. apply assign_all_lookup_agree; auto. }
  unfold bind at 1, getattr. rewrite lookup_attr_on_change_intact by done.
  unfold bind, log_call, modify. simpl.
  destruct c; simpl.
  - eexists. split; [by destruct v|]. split; [done|]. simpl.
    rewrite Ho. destruct v; by rewrite append_empty_r.
  - destruct v as [t|w].
    + rewrite CpuController_on_change_int with (t := t) by done.
      eexists. split; [done|]. split; [done|]. simpl. by rewrite Ho.
    + rewrite CpuController_on_change_str with (w := w) by done.
      eexists. split; [done|]. split; [done|]. simpl.
      by rewrite Ho, ?append_assoc.
  - destruct v as [t|w].
    + destruct (printable t) eqn:Hp.
      * rewrite TempDisplay_on_change_int with (t := t) by done.
        eexists. split; [done|]. split; [done|]. simpl. by rewrite Ho.
      * rewrite TempDisplay_on_change_long with (t := t) by done.
        eexists. split; [done|]. split; [done|]. simpl. by rewrite Ho.
    + rewrite TempDisplay_on_change_text with (w := w) by done.
      eexists. split; [done|]. split; [done|]. simpl. by rewrite Ho.
Qed.

Lemma notify_loop_run l st v :
  Forall is_class l →
  methods_intact (heap st) →
  plain_vars (subject st) →
  dict_get "_get_vars" (vars (subject st)) = None →
  dict_get "temp" (vars (subject st)) = Some v →
  ∃ st', for_each l Subject.notify_body st = ((notification l v).1, st') ∧
    methods_intact (heap st') ∧
    stdout st' = stdout st +:+ (notification l v).2.
Proof.
  revert st. induction l as [|o l IH]; intros st Hl Hi Hp Hg Ht; simpl.
  - exists st. by rewrite append_empty_r.
  - apply Forall_cons in Hl as [Ho Hl]. destruct o as [c|]; [|done]. simpl.
    destruct (notify_body_class_run c st v) as (st1 & H1 & Hi1 & Hout1); try done.
    pose proof (keeps_eq subject _ _ _ _ (notify_body_keeps_subject _) H1) as Hs.
    unfold bind. rewrite H1. destruct (turn_result c v) as [[]|e].
    + destruct (IH st1) as (st' & H & Hi' & Hout'); rewrite ?Hs; try done.
      exists st'. split; [done|]. split; [done|].
      rewrite Hout', Hout1. simpl. by rewrite append_assoc.
    + by exists st1.
Qed.

(** How [change_measurements] goes on from the assignment. *)
Lemma change_measurements_run_eq v st :
  CpuSensor.change_measurements v st
  = let st0 := set_subject (λ s, mkSubject (_observers s) (dict_set "temp" v (vars s))) st in
    match dict_get "notify" (vars (subject st)) with
    | Some _ => (Raise (TypeError NotCallable), st0)
    | None => for_each (_observers (subject st)) Subject.notify_body st0
    end.
Proof.
  unfold CpuSensor.change_measurements, bind at 1, modify.
  rewrite call_method_run. simpl. rewrite dict_get_set_ne by done.
  by destruct (dict_get "notify" (vars (subject st))).
Qed.

Lemma change_measurements_loop v st r st' :
  CpuSensor.change_measurements v st = (r, st') →
  let st0 := set_subject (λ s, mkSubject (_observers s) (dict_set "temp" v (vars s))) st in
  (is_Some (dict_get "notify" (vars (subject st))) ∧
   r = Raise (TypeError NotCallable) ∧ st' = st0)
  ∨ (dict_get "notify" (vars (subject st)) = None ∧
     for_each (_observers (subject st)) Subject.notify_body st0 = (r, st')).
Proof.
  rewrite change_measurements_run_eq. cbv zeta.
  destruct (dict_get "notify" (vars (subject st))) as [x|].
  - intros [= <- <-]. left. eauto.
  - intros H. by right.
Qed.

Lemma change_measurements_run st v :
  Forall is_class (_observers (subject st)) →
  methods_intact (heap st) →
  plain_vars (subject st) →
  unshadowed (subject st) →
  ∃ st', CpuSensor.change_measurements v st
         = ((notification (_observers (subject st)) v).1, st') ∧
    methods_intact (heap st') ∧
    stdout st' = stdout st +:+ (notification (_observers (subject st)) v).2.
Proof.
  intros Hl Hi [Hpu Hpo] [Hn Hg].
  rewrite change_measurements_run_eq, Hn. cbv zeta.
  set (st0 := set_subject _ st).
  destruct (notify_loop_run (_observers (subject st)) st0 v)
    as (st' & H & Hi' & Hout); try done.
  - split; simpl; by rewrite dict_get_set_ne.
  - simpl. by rewrite dict_get_set_ne.
  - simpl. apply dict_get_set_eq.
  - by exists st'.
Qed.

Lemma printable_50_110 t : (50 ≤ t ≤ 110)%Z → printable t = true.
Proof.
  intros Ht. unfold printable, int_max_str_digits. apply Z.ltb_lt.
  apply Z.lt_le_trans with (10 ^ 3)%Z; [lia|].
  apply Z.pow_le_mono_r; lia.
Qed.

Lemma notification_int l t :
  printable t = true →
  notification l (VInt t) = (Ok tt, reports l t).
Proof.
  intros Hp. induction l as [|o l IH]; [done|]. simpl.
  assert (turn_result (class_of o) (VInt t) = Ok tt) as ->
    by (destruct (class_of o); simpl; by rewrite ?Hp).
  rewrite IH. simpl. destruct (class_of o); simpl; by rewrite ?Hp.
Qed.

Lemma notification_str_controller l w :
  (∃ o, o ∈ l ∧ class_of o = CpuController) →
  (notification l (VStr w)).1 = Raise (TypeError BadOperand).
Proof.
  induction l as [|o l IH]; intros (o' & Hin & Hc).
  - by apply elem_of_nil in Hin.
  - simpl. destruct (class_of o) eqn:Ho; simpl; try done;
      apply IH; apply elem_of_cons in Hin as [->|Hin]; eauto; congruence.
Qed.

Lemma notification_str_no_controller l w :
  (∀ o, o ∈ l → class_of o ≠ CpuController) →
  (notification l (VStr w)).1 = Ok tt.
Proof.
  induction l as [|o l IH]; intros Hl; [done|]. simpl.
  assert (class_of o ≠ CpuController) as Ho by (apply Hl; by left).
  assert (turn_result (class_of o) (VStr w) = Ok tt) as ->
    by (by destruct (class_of o)).
  simpl. apply IH. intros o' Hin. apply Hl. by right.
Qed.

Lemma notification_long_display l t :
  printable t = false →
  (∃ o, o ∈ l ∧ class_of o = TempDisplay) →
  (notification l (VInt t)).1 = Raise ValueError.
Proof.
  intros Hp. induction l as [|o l IH]; intros (o' & Hin & Hc).
  - by apply elem_of_nil in Hin.
  - simpl. destruct (class_of o) eqn:Ho; simpl; rewrite ?Hp; try done;
      apply IH; apply elem_of_cons in Hin as [->|Hin]; eauto; congruence.
Qed.

Lemma notification_int_no_display l t :
  (∀ o, o ∈ l → class_of o ≠ TempDisplay) →
  (notification l (VInt t)).1 = Ok tt.
Proof.
  induction l as [|o l IH]; intros Hl; [done|]. simpl.
  assert (class_of o ≠ TempDisplay) as Ho by (apply Hl; by left).
  assert (turn_result (class_of o) (VInt t) = Ok tt) as ->
    by (by destruct (class_of o)).
  simpl. apply IH. intros o' Hin. apply Hl. by right.
Qed.

(** A reading of an integer that can be printed, pushed to observer
    classes with intact methods, ends normally. *)
Lemma change_measurements_ok st t :
  Forall is_class (_observers (subject st)) →
  methods_intact (heap st) →
  plain_vars (subject st) →
  unshadowed (subject st) →
  printable t = true →
  ∃ st', CpuSensor.change_measurements (VInt t) st = (Ok tt, st') ∧
    methods_intact (heap st') ∧
    plain_vars (subject st') ∧
    unshadowed (subject st') ∧
    stdout st' = stdout st +:+ reports (_observers (subject st)) t.
Proof.
  intros Hl Hi Hp Hu Ht.
  destruct (change_measurements_run st (VInt t) Hl Hi Hp Hu) as (st' & H & Hi' & Hout).
  rewrite notification_int in H, Hout by done. simpl in *.
  exists st'. split; [done|]. split; [done|].
  assert (vars (subject st') = dict_set "temp" (VInt t) (vars (subject st))) as Hv.
  { rewrite change_measurements_run_eq in H. cbv zeta in H.
    destruct (dict_get "notify" _); [done|].
    by rewrite (keeps_eq subject _ _ _ _
      (keeps_for_each subject _ _ notify_body_keeps_subject) H). }
  destruct Hp, Hu. unfold plain_vars, unshadowed. rewrite Hv.
  by rewrite !dict_get_set_ne.
Qed.

(** ** The calls of a whole notification *)

(** The objects whose [update] a notification calls form a prefix of the
    registry: all of it when the notification ends normally. *)
Lemma notify_receivers st r st' :
  Subject.notify st = (r, st') →
  ∃ new, calls st' = calls st ++ new ∧
    update_receivers new `prefix_of` _observers (subject st) ∧
    (r = Ok tt → update_receivers new = _observers (subject st)).
Proof.
  intros H. apply notify_log in H as (_ & served & rest & part & Hl & Hc & Hr).
  eexists. split; [exact Hc|].
  rewrite update_receivers_app, update_receivers_served, Hl.
  destruct r as [[]|e].
  - destruct Hr as [-> ->]. rewrite !app_nil_r. done.
  - destruct Hr as (o & rest' & -> & Hp). split; [|done].
    destruct (update_receivers_part _ _ _ Hp) as [->| ->].
    + rewrite app_nil_r. by apply prefix_app_r.
    + apply prefix_app, prefix_cons, prefix_nil.
Qed.

(** Every call that a notification logs has the shape written in the source. *)
Lemma notify_call_shapes st r st' :
  Subject.notify st = (r, st') →
  ∃ new, calls st' = calls st ++ new ∧
    ∀ c, c ∈ new →
      c = Call (receiver c) "update" [AObj (receiver c); AData (Subject.get_vars_of (subject st))]
      ∨ c = Call (receiver c) "on_change" [AObj (receiver c)].
Proof.
  intros H. apply notify_log in H as (_ & served & rest & part & Hl & Hc & Hr).
  eexists. split; [exact Hc|]. intros c Hin.
  assert (∃ o, c ∈ calls_of (Subject.get_vars_of (subject st)) o) as [o Ho].
  { apply elem_of_app in Hin as [Hin|Hin].
    - apply list_elem_of_bind in Hin as (o & Hin & _). eauto.
    - destruct r as [[]|e]; [destruct Hr as [_ ->]; by apply elem_of_nil in Hin|].
      destruct Hr as (o & rest' & _ & [k Hk]). exists o. rewrite Hk.
      apply elem_of_app. by left. }
  unfold calls_of in Ho. apply elem_of_cons in Ho as [->|Ho]; [by left|].
  apply list_elem_of_singleton in Ho as ->. by right.
Qed.

(** ** What the observers hold after a notification *)

(** Once an object holds [v] under [name], a turn of the loop that copies a
    snapshot agreeing on [name] leaves it so. *)
Lemma notify_body_holds o st r st' o' name v :
  Subject.notify_body o st = (r, st') →
  (∀ w, (name, w) ∈ Subject.get_vars_of (subject st) → w = v) →
  attrs_of (heap st) o' !! name = Some v →
  attrs_of (heap st') o' !! name = Some v.
Proof.
  intros H Hagree Hv.
  apply notify_body_heap in H as (Hother & Hself & _).
  destruct (decide (o' = o)) as [->|Hne]; [|by rewrite Hother].
  destruct Hself as [-> | ->]; [done|].
  apply assign_all_lookup_agree; auto.
Qed.

Lemma notify_loop_holds l st st' name v :
  for_each l Subject.notify_body st = (Ok tt, st') →
  (∀ w, (name, w) ∈ Subject.get_vars_of (subject st) → w = v) →
  name ∈ (Subject.get_vars_of (subject st)).*1 →
  ∀ o, o ∈ l ∨ attrs_of (heap st) o !! name = Some v →
       attrs_of (heap st') o !! name = Some v.
Proof.
  revert st. induction l as [|o1 l IH]; intros st H Hagree Hin o Ho; simpl in H.
  - injection H as <-. destruct Ho as [Ho|Ho]; [by apply elem_of_nil in Ho|done].
  - apply bind_inv in H as [([] & st1 & H1 & H)|(e & _ & ?)]; [|done].
    pose proof (keeps_eq subject _ _ _ _ (notify_body_keeps_subject o1) H1) as Hs.
    eapply IH; [exact H|by rewrite Hs|by rewrite Hs|].
    destruct Ho as [[->|Ho]%elem_of_cons|Ho].
    + right. apply notify_body_heap in H1 as (_ & _ & ->); [|done].
      apply assign_all_lookup_agree; auto.
    + by left.
    + right. eapply notify_body_holds; eauto.
Qed.

(** ** Operations of a caller *)

Lemma list_remove_Some x l l' :
  list_remove x l = Some l' →
  ∃ l1 l2, l = l1 ++ (x :: l2) ∧ (x ∉ l1) ∧ l' = l1 ++ l2.
Proof.
  revert l'. induction l as [|y l IH]; intros l'; simpl; [done|].
  destruct (decide (y = x)) as [->|Hne].
  - intros [= <-]. exists [], l. split; [done|]. split; [apply not_elem_of_nil|done].
  - destruct (list_remove x l) as [k|]; [|done]. intros [= <-].
    destruct (IH k eq_refl) as (l1 & l2 & -> & Hn & ->).
    exists (y :: l1), l2. split; [done|]. split; [|done].
    apply not_elem_of_cons. split; [done|done].
Qed.

Lemma list_remove_None x l : list_remove x l = None ↔ x ∉ l.
Proof.
  induction l as [|y l IH]; simpl.
  - split; [intros _; apply not_elem_of_nil|done].
  - destruct (decide (y = x)) as [->|Hne].
    + split; [done|]. intros Hn. exfalso. apply Hn. by left.
    + rewrite not_elem_of_cons. destruct (list_remove x l); simpl.
      * split; [done|]. intros [_ Hn]. by apply IH in Hn.
      * split; [|done]. intros _. split; [done|]. by apply IH.
Qed.

Lemma notify_keeps_subject : keeps subject Subject.notify.
Proof.
  unfold Subject.notify. apply keeps_bind; [apply keeps_gets|intros s].
  apply keeps_for_each, notify_body_keeps_subject.
Qed.

Lemma change_measurements_subject v st :
  subject (CpuSensor.change_measurements v st).2
  = mkSubject (_observers (subject st)) (dict_set "temp" v (vars (subject st))).
Proof.
  rewrite change_measurements_run_eq. cbv zeta.
  destruct (dict_get "notify" _); [done|].
  by rewrite (keeps_for_each subject _ _ notify_body_keeps_subject).
Qed.

Lemma remove_vars o st :
  vars (subject (Subject.remove o st).2) = vars (subject st).
Proof.
  unfold Subject.remove, bind, gets. simpl. by destruct (list_remove o _).
Qed.

Lemma run_op_subject p st :
  vars (subject (run_op p st).2) = vars (subject st)
  ∨ ∃ v, p = OpChange v ∧
         vars (subject (run_op p st).2) = dict_set "temp" v (vars (subject st)).
Proof.
  destruct p as [o|o| |v]; simpl; rewrite call_method_run;
    (destruct (dict_get _ (vars (subject st))); [by left|]).
  - by left.
  - left. apply remove_vars.
  - left. by rewrite notify_keeps_subject.
  - right. exists v. by rewrite change_measurements_subject.
Qed.

(** After an operation the registry holds nothing new, except what
    [register] has just appended. *)
Lemma run_op_registry p st o :
  o ∈ _observers (subject (run_op p st).2) →
  o ∈ _observers (subject st) ∨ p = OpRegister o.
Proof.
  destruct p as [o'|o'| |v]; simpl; rewrite call_method_run;
    (destruct (dict_get _ (vars (subject st))); [by left|]).
  - intros [?|?%list_elem_of_singleton]%elem_of_app; [by left|right; by subst].
  - unfold Subject.remove, bind, gets. simpl.
    destruct (list_remove o' _) as [l|] eqn:Hl; simpl; [|by left].
    apply list_remove_Some in Hl as (l1 & l2 & -> & _ & ->).
    rewrite !elem_of_app, elem_of_cons. intros [?|?]; left; auto.
  - rewrite notify_keeps_subject. by left.
  - rewrite change_measurements_subject. by left.
Qed.

(** An operation only appends to the log, and only calls [update] on
    objects that are in the registry when it starts. *)
Lemma run_op_log p st :
  ∃ new, calls (run_op p st).2 = calls st ++ new ∧
    ∀ o, o ∈ update_receivers new → o ∈ _observers (subject st).
Proof.
  assert (∀ st, ∃ new, calls (Subject.notify st).2 = calls st ++ new ∧
            ∀ o, o ∈ update_receivers new → o ∈ _observers (subject st)) as Hn.
  { clear. intros st. destruct (Subject.notify st) as [r st'] eqn:H.
    apply notify_receivers in H as (new & Hc & [k Hk] & _).
    exists new. split; [done|]. intros o Ho. rewrite Hk.
    apply elem_of_app. by left. }
  assert (∃ new, calls st = calls st ++ new ∧
            ∀ o, o ∈ update_receivers new → o ∈ _observers (subject st)) as Hnone.
  { exists []. rewrite app_nil_r. split; [done|]. by intros ? ?%elem_of_nil. }
  destruct p as [o|o| |v]; simpl; rewrite call_method_run;
    (destruct (dict_get _ (vars (subject st))); [done|]).
  - done.
  - exists []. rewrite app_nil_r. split; [|by intros ? ?%elem_of_nil].
    unfold Subject.remove, bind, gets. simpl. by destruct (list_remove o _).
  - apply Hn.
  - rewrite change_measurements_run_eq. cbv zeta.
    destruct (dict_get "notify" _); [done|].
    exact (Hn (set_subject (λ s, mkSubject (_observers s) (dict_set "temp" v (vars s))) st)).
Qed.

Lemma run_ops_log o ops st :
  o ∉ _observers (subject st) →
  (∀ p, p ∈ ops → p ≠ OpRegister o) →
  ∃ new, calls (run_ops ops st) = calls st ++ new ∧ o ∉ update_receivers new.
Proof.
  revert st. induction ops as [|p ops IH]; intros st Hn Hops; simpl.
  - exists []. rewrite app_nil_r. split; [done|]. apply not_elem_of_nil.
  - destruct (run_op_log p st) as (new1 & Hc1 & Hr1).
    destruct (IH (run_op p st).2) as (new2 & Hc2 & Hr2).
    + intros [Hin|Hp]%run_op_registry; [done|]. by apply (Hops p); [left|].
    + intros q Hq. apply Hops. by right.
    + exists (new1 ++ new2). split; [by rewrite Hc2, Hc1, <- app_assoc|].
      rewrite update_receivers_app, elem_of_app. intros [?|?]; [|done].
      apply Hn. auto.
Qed.

Lemma run_ops_sensor_vars ops st :
  sensor_vars (subject st) → sensor_vars (subject (run_ops ops st)).
Proof.
  revert st. induction ops as [|p ops IH]; intros st Hs; simpl; [done|].
  apply IH. unfold sensor_vars in *.
  destruct (run_op_subject p st) as [-> | (v & _ & ->)]; [done|].
  right. destruct Hs as [-> | [u ->]]; simpl; eauto.
Qed.

(** Such a sensor holds nothing under any name but [temp]. *)
Lemma sensor_vars_get s name :
  sensor_vars s → name ≠ "temp" → dict_get name (vars s) = None.
Proof.
  intros [Hv | [u Hv]] Hne; rewrite Hv; simpl; [done|].
  by rewrite decide_False by done.
Qed.

Lemma sensor_vars_change v s :
  sensor_vars s →
  sensor_vars (mkSubject (_observers s) (dict_set "temp" v (vars s))).
Proof. intros [Hv | [u Hv]]; right; exists v; simpl; by rewrite Hv. Qed.

Lemma str_int_read_back t : int_of_str (str_int t) = Some t.
Proof.
  unfold int_of_str, str_int.
  rewrite NilZero.isi.
  - simpl. by rewrite DecimalZ.of_to.
  - destruct t; simpl; [done| |done]. intros [= H].
    by apply DecimalPos.Unsigned.to_uint_nonnil in H.
  - destruct t; simpl; [done|done|]. intros [= H].
    by apply DecimalPos.Unsigned.to_uint_nonnil in H.
Qed.

Lemma registrations_remove o st l1 l2 :
  _observers (subject st) = l1 ++ o :: l2 →
  registrations o (subject (set_subject (λ s, mkSubject (l1 ++ l2) (vars s)) st))
  = pred (registrations o (subject st)).
Proof.
  intros Hl. unfold registrations. simpl. rewrite Hl, !filter_app, filter_cons.
  rewrite decide_True by done. rewrite !length_app. simpl. lia.
Qed.

Lemma registrations_zero o s : registrations o s = 0%nat → o ∉ _observers s.
Proof.
  unfold registrations. intros Hz Hin.
  assert (o ∈ filter (λ x, x = o) (_observers s)) as Hf
    by (by apply list_elem_of_filter).
  destruct (filter _ _); [by apply elem_of_nil in Hf|done].
Qed.

Lemma remove_spec o st :
  match list_remove o (_observers (subject st)) with
  | Some l => Subject.remove o st = (Ok tt, set_subject (λ s, mkSubject l (vars s)) st)
  | None => Subject.remove o st = (Raise ValueError, st)
  end.
Proof.
  unfold Subject.remove, bind, gets. simpl. by destruct (list_remove o _).
Qed.

(** A notification that ends normally has found [update] through a class
    on every entry: an instance never gets that far. *)
Lemma notify_loop_Ok_classes l st st' :
  for_each l Subject.notify_body st = (Ok tt, st') → Forall is_class l.
Proof.
  revert st. induction l as [|o l IH]; intros st H; simpl in H; [done|].
  apply bind_inv in H as [([] & st1 & H1 & H)|(e & _ & ?)]; [|done].
  apply Forall_cons. split; [|by eapply IH].
  apply notify_body_inv in H1 as [(_ & _ & e & ?)|[Hl _]]; [done|].
  destruct o as [c|c n]; [done|]. simpl in Hl.
  destruct (attrs_of _ _ !! _); [done|].
  destruct (mro_lookup _ _ _) as [[]|]; done.
Qed.

Lemma omap_dict_items (d : snapshot) :
  NoDup d.*1 →
  omap (λ key, if startswith_underscore key then None
               else (key,.) <$> dict_get key d) d.*1
  = filter (λ p, startswith_underscore p.1 = false) d.
Proof.
  induction d as [|[k v] d IH]; intros Hnd; [done|].
  apply NoDup_cons in Hnd as [Hk Hnd].
  rewrite fmap_cons, filter_cons. cbn [omap list_omap fst dict_get].
  rewrite decide_True by done.
  assert (omap (λ key, if startswith_underscore key then None
                       else (key,.) <$> (if decide (k = key) then Some v
                                         else dict_get key d)) d.*1
          = omap (λ key, if startswith_underscore key then None
                         else (key,.) <$> dict_get key d) d.*1) as Hrest.
  { apply list_omap_ext, Forall_Forall2_diag, Forall_forall. intros key Hkey.
    destruct (decide (k = key)) as [->|Hne]; [|done].
    exfalso. by apply Hk, list_elem_of_In. }
  fold (@omap list _ _ _
          (λ key, if startswith_underscore key then None
                  else (key,.) <$> (if decide (k = key) then Some v
                                    else dict_get key d)) d.*1).
  rewrite Hrest, IH by done.
  by destruct (startswith_underscore k).
Qed.

Lemma get_vars_of_NoDup s :
  NoDup (vars s).*1 →
  Subject.get_vars_of s = filter (λ p, startswith_underscore p.1 = false) (vars s).
Proof.
  intros Hnd. unfold Subject.get_vars_of, Subject.dict_keys.
  cbn [omap list_omap]. change (startswith_underscore "_observers") with true.
  cbv iota. by apply omap_dict_items.
Qed.

(** A loop that raises has gone normally through a first part of the list
    and has stopped in the turn that raised. *)
Lemma for_each_raise {A} (l : list A) (body : A → M unit) st e st' :
  for_each l body st = (Raise e, st') →
  ∃ served x rest st1,
    l = served ++ x :: rest ∧
    for_each served body st = (Ok tt, st1) ∧
    body x st1 = (Raise e, st').
Proof.
  revert st. induction l as [|x l IH]; intros st H; simpl in H; [done|].
  apply bind_inv in H as [([] & st1 & H1 & H)|(e1 & H1 & [= <-])].
  - destruct (IH _ H) as (served & y & rest & st2 & -> & Hserved & Hy).
    exists (x :: served), y, rest, st2. split; [done|]. split; [|done].
    simpl. unfold bind. by rewrite H1.
  - by exists [], x, l, st.
Qed.

(** * The claims *)

(** C1 (as amended).  A call to [notify()] that ends without an exception
    has called [update] exactly once on each entry of the registry, in
    registration order.  When the notification of an entry raises,
    [notify()] stops there: the entries before it have been notified
    normally, the call ends with that exception in the state that entry's
    notification left, and [update] has been called once each, in order,
    on the entries before it, at most once on it, and on no later one. *)
Theorem notify_calls_update_in_registration_order (st : state) :
  let r := (Subject.notify st).1 in
  let st' := (Subject.notify st).2 in
  let called := update_receivers (new_calls st st') in
  (r = Ok tt → called = _observers (subject st)) ∧
  (∀ e, r = Raise e →
     ∃ served o rest st1,
       _observers (subject st) = served ++ o :: rest ∧
       for_each served Subject.notify_body st = (Ok tt, st1) ∧
       Subject.notify_body o st1 = (Raise e, st') ∧
       (called = served ∨ called = served ++ [o])).
Proof.
  destruct (Subject.notify st) as [r st'] eqn:H. simpl. split.
  - intros ->. apply notify_receivers in H as (new & Hc & _ & Hall).
    rewrite (new_calls_app _ _ _ Hc). by apply Hall.
  - intros e ->. unfold Subject.notify, bind, gets in H.
    apply for_each_raise in H as (served & o & rest & st1 & Hl & Hserved & Ho).
    exists served, o, rest, st1. split; [done|]. split; [done|]. split; [done|].
    pose proof (notify_loop_log _ _ _ _ Hserved)
      as (Hs & served' & rest' & part' & Hl' & Hc1 & -> & ->).
    rewrite app_nil_r in Hl'. subst served'. rewrite ?app_nil_r in Hc1.
    assert (subject st1 = subject st) as Hs1 by done.
    apply notify_body_log in Ho as (part & Hc2 & Hpart).
    rewrite Hs1 in Hpart.
    rewrite Hc1, <- app_assoc in Hc2. rewrite (new_calls_app _ _ _ Hc2).
    rewrite update_receivers_app, update_receivers_served.
    destruct (update_receivers_part _ _ _ Hpart) as [-> | ->];
      [left; by rewrite app_nil_r|by right].
Qed.

Lemma notify_calls_update_in_registration_order_witness :
  (Subject.notify driver_after_95).1 = Ok tt ∧
  update_receivers (new_calls driver_after_95 (Subject.notify driver_after_95).2)
  = [ClassObj CpuController; ClassObj TempDisplay].
Proof.
  split; [vm_compute; reflexivity|].
  apply (notify_calls_update_in_registration_order driver_after_95).
  vm_compute; reflexivity.
Defined.

(** C1 as stated fails: called on the driver's sensor before any reading,
    [notify()] raises inside the first observer and never calls [update] on
    the second. *)
Lemma notify_stops_at_the_first_failure :
  _observers (subject driver_setup) = [ClassObj CpuController; ClassObj TempDisplay] ∧
  (Subject.notify driver_setup).1 = Raise (AttributeError "temp") ∧
  update_receivers (new_calls driver_setup (Subject.notify driver_setup).2)
  = [ClassObj CpuController] ∧
  update_receivers (new_calls driver_setup (Subject.notify driver_setup).2)
  ≠ _observers (subject driver_setup).
Proof. vm_compute. repeat split; try reflexivity. discriminate. Qed.

(** C2.  After [change_measurements(v)] has returned, the sensor holds [v]
    as its [temp], the registry is the one it had, and reading [temp] on
    any registered observer gives [v]. *)
Theorem change_measurements_pushes_temp (v : value) (st st' : state) :
  CpuSensor.change_measurements v st = (Ok tt, st') →
  dict_get "temp" (vars (subject st')) = Some v ∧
  _observers (subject st') = _observers (subject st) ∧
  ∀ o, o ∈ _observers (subject st') → lookup_attr (heap st') o "temp" = Some (AVal v).
Proof.
  intros H.
  pose proof (change_measurements_subject v st) as Hs. rewrite H in Hs. simpl in Hs.
  rewrite Hs. simpl. split; [apply dict_get_set_eq|]. split; [done|].
  intros o Ho. apply lookup_attr_own.
  apply change_measurements_loop in H as [(_ & ? & _)|[_ H]]; [done|].
  set (st0 := set_subject _ st) in H.
  destruct (snapshot_temp (subject st0) v) as [Hagree Hin];
    [apply dict_get_set_eq|].
  eapply notify_loop_holds; [exact H|done|done|by left].
Qed.

Lemma change_measurements_pushes_temp_witness :
  CpuSensor.change_measurements (VInt 95) driver_setup = (Ok tt, driver_after_95) ∧
  lookup_attr (heap driver_after_95) (ClassObj CpuController) "temp" = Some (AVal (VInt 95)) ∧
  lookup_attr (heap driver_after_95) (ClassObj TempDisplay) "temp" = Some (AVal (VInt 95)).
Proof.
  assert (CpuSensor.change_measurements (VInt 95) driver_setup = (Ok tt, driver_after_95))
    as Hrun by (vm_compute; reflexivity).
  destruct (change_measurements_pushes_temp (VInt 95) driver_setup driver_after_95 Hrun)
    as (_ & _ & Hobs).
  split; [exact Hrun|].
  split; apply Hobs; vm_compute; apply list_elem_of_In; simpl; auto.
Defined.

(** C3.  Holding the integer [t] as its [temp], [CpuController.on_change]
    ends normally and prints an empty line, the tag [CpuController: ] and
    one line of text, which is [Panic!] exactly when [t > 90] and
    [Everything under control] otherwise, so also at [t = 90]. *)
Theorem CpuController_panics_iff_above_90 (self : obj) (t : Z) (st : state) :
  lookup_attr (heap st) self "temp" = Some (AVal (VInt t)) →
  ∃ text,
    CpuController.on_change self st
    = (Ok tt, set_stdout (λ out, out +:+ newline +:+ newline +:+ "CpuController: "
                                     +:+ text +:+ newline) st) ∧
    (text = "Panic!" ↔ t > 90) ∧
    (text = "Everything under control" ↔ t ≤ 90) ∧
    (t = 90 → text = "Everything under control").
Proof.
  intros H. rewrite (CpuController_on_change_int self t st H). unfold report.
  destruct (decide (t > 90)) as [Hgt|Hle].
  - rewrite bool_decide_eq_true_2 by done. exists "Panic!".
    split; [done|]. split; [done|]. split; [|lia].
    split; [discriminate|lia].
  - rewrite bool_decide_eq_false_2 by done. exists "Everything under control".
    split; [done|]. split; [|split; [|done]].
    + split; [discriminate|done].
    + split; [lia|done].
Qed.

Lemma CpuController_panics_iff_above_90_witness :
  CpuController.on_change (ClassObj CpuController) (set_stdout (λ _, "") driver_after_95)
  = (Ok tt, set_stdout (λ _, newline +:+ newline +:+ "CpuController: Panic!" +:+ newline)
              driver_after_95).
Proof.
  destruct (CpuController_panics_iff_above_90 (ClassObj CpuController) 95
              (set_stdout (λ _, "") driver_after_95)) as (text & Hrun & Hpanic & _).
  - vm_compute; reflexivity.
  - rewrite Hrun. assert (text = "Panic!") as -> by (apply Hpanic; lia).
    reflexivity.
Defined.

(** C5 (as amended).  Holding as its [temp] an integer [t] of at most 4300
    decimal digits, [TempDisplay.on_change] ends normally and prints the tag
    [Display: ], the decimal numeral of [t] and [ Deg]; the numeral reads
    back as [t], and for 73 the report is [73 Deg]. *)
Theorem TempDisplay_reports_value_and_unit (self : obj) (t : Z) (st : state) :
  lookup_attr (heap st) self "temp" = Some (AVal (VInt t)) →
  (Z.abs t < 10 ^ 4300)%Z →
  TempDisplay.on_change self st
  = (Ok tt, set_stdout (λ out, out +:+ "Display: " +:+ str_int t +:+ " Deg" +:+ newline) st) ∧
  int_of_str (str_int t) = Some t ∧
  (t = 73 → str_int t +:+ " Deg" = "73 Deg").
Proof.
  intros H Ht. split; [|split].
  - apply TempDisplay_on_change_int; [done|]. by apply Z.ltb_lt.
  - apply str_int_read_back.
  - by intros ->.
Qed.

Lemma TempDisplay_reports_value_and_unit_witness :
  (Z.abs 95 < 10 ^ 4300)%Z ∧
  TempDisplay.on_change (ClassObj TempDisplay) (set_stdout (λ _, "") driver_after_95)
  = (Ok tt, set_stdout (λ _, "Display: 95 Deg" +:+ newline) driver_after_95).
Proof.
  assert (Z.abs 95 < 10 ^ 4300)%Z as Ht by (vm_compute; reflexivity).
  split; [exact Ht|].
  destruct (TempDisplay_reports_value_and_unit (ClassObj TempDisplay) 95
              (set_stdout (λ _, "") driver_after_95)) as (Hrun & _ & _).
  - vm_compute; reflexivity.
  - exact Ht.
  - rewrite Hrun. reflexivity.
Defined.

(** C5 as stated fails: for an integer of 4301 digits the conversion to
    text raises [ValueError], after the tag has been printed and before any
    digit or unit. *)
Lemma TempDisplay_refuses_a_4301_digit_temp :
  lookup_attr (heap display_holding_long) (ClassObj TempDisplay) "temp"
  = Some (AVal (VInt (10 ^ 4300))) ∧
  TempDisplay.on_change (ClassObj TempDisplay) display_holding_long
  = (Raise ValueError, set_stdout (λ _, "Display: ") display_holding_long).
Proof. split; vm_compute; reflexivity. Qed.

(** C4 (as amended).  When [o] occurs exactly once in the registry,
    [remove(o)] ends normally and takes it out, and no later call on the
    sensor calls [update] on [o], however many notifications follow and
    however they end, unless [o] is registered again. *)
Theorem removed_observer_is_no_longer_notified (o : obj) (st : state) (ops : list op) :
  registrations o (subject st) = 1%nat →
  (∀ p, p ∈ ops → p ≠ OpRegister o) →
  let st1 := (Subject.remove o st).2 in
  (Subject.remove o st).1 = Ok tt ∧
  (o ∉ _observers (subject st1)) ∧
  (o ∉ update_receivers (new_calls st1 (run_ops ops st1))).
Proof.
  intros Hone Hops. pose proof (remove_spec o st) as Hr.
  destruct (list_remove o _) as [l|] eqn:Hl.
  2:{ apply list_remove_None in Hl. exfalso.
      assert (registrations o (subject st) = 0%nat) as Hz; [|lia].
      unfold registrations.
      destruct (filter (λ x, x = o) (_observers (subject st))) as [|x k] eqn:Hf;
        [done|].
      assert (x ∈ filter (λ x, x = o) (_observers (subject st))) as Hx
        by (rewrite Hf; by left).
      apply list_elem_of_filter in Hx as [-> Hx]. done. }
  apply list_remove_Some in Hl as (l1 & l2 & Hreg & Hn1 & ->).
  rewrite Hr. simpl. split; [done|].
  pose proof (registrations_remove o st l1 l2 Hreg) as Hcount.
  rewrite Hone in Hcount. apply registrations_zero in Hcount. split; [done|].
  destruct (run_ops_log o ops _ Hcount Hops) as (new & Hc & Hnew).
  by rewrite (new_calls_app _ _ _ Hc).
Qed.

Lemma removed_observer_is_no_longer_notified_witness :
  registrations (ClassObj CpuController) (subject driver_after_95) = 1%nat ∧
  (Subject.remove (ClassObj CpuController) driver_after_95).1 = Ok tt ∧
  (ClassObj CpuController ∉
     update_receivers
       (new_calls (Subject.remove (ClassObj CpuController) driver_after_95).2
          (run_ops [OpChange (VInt 60); OpNotify]
             (Subject.remove (ClassObj CpuController) driver_after_95).2))).
Proof.
  assert (registrations (ClassObj CpuController) (subject driver_after_95) = 1%nat)
    as Hone by (vm_compute; reflexivity).
  assert (∀ p, p ∈ [OpChange (VInt 60); OpNotify] → p ≠ OpRegister (ClassObj CpuController))
    as Hops.
  { intros p Hp. apply list_elem_of_In in Hp. simpl in Hp.
    destruct Hp as [<-|[<-|[]]]; discriminate. }
  destruct (removed_observer_is_no_longer_notified (ClassObj CpuController)
              driver_after_95 [OpChange (VInt 60); OpNotify] Hone Hops)
    as (Hok & _ & Hnot).
  split; [exact Hone|]. split; [exact Hok|exact Hnot].
Defined.

(** C4 as stated fails: [remove] takes away the first registration only, so
    an observer that was registered twice is still notified. *)
Lemma remove_leaves_a_second_registration :
  let o := ClassObj TempDisplay in
  let st1 := (Subject.remove o registered_twice).2 in
  _observers (subject registered_twice) = [o; o] ∧
  (Subject.remove o registered_twice).1 = Ok tt ∧
  (Subject.notify st1).1 = Ok tt ∧
  update_receivers (new_calls st1 (Subject.notify st1).2) = [o].
Proof. vm_compute. repeat split; reflexivity. Qed.

(** C6.  [remove(o)] takes the first occurrence of [o] out of the registry
    and ends normally when [o] is registered; when it is not, it raises
    [ValueError] and leaves the whole state, the registry included, as it
    was. *)
Theorem remove_first_occurrence_or_raise (o : obj) (st : state) :
  (o ∈ _observers (subject st) →
   ∃ l1 l2, _observers (subject st) = l1 ++ o :: l2 ∧ (o ∉ l1) ∧
     Subject.remove o st = (Ok tt, set_subject (λ s, mkSubject (l1 ++ l2) (vars s)) st)) ∧
  (o ∉ _observers (subject st) →
   Subject.remove o st = (Raise ValueError, st)).
Proof.
  pose proof (remove_spec o st) as Hr.
  destruct (list_remove o _) as [l|] eqn:Hl.
  - apply list_remove_Some in Hl as (l1 & l2 & Hreg & Hn1 & ->). split.
    + intros _. by exists l1, l2.
    + intros Hn. exfalso. apply Hn. rewrite Hreg.
      apply elem_of_app. right. by left.
  - apply list_remove_None in Hl. split; [done|]. by intros _.
Qed.

Lemma remove_first_occurrence_or_raise_witness :
  Subject.remove (ClassObj Observer) driver_setup = (Raise ValueError, driver_setup) ∧
  ∃ l1 l2, _observers (subject registered_twice) = l1 ++ ClassObj TempDisplay :: l2 ∧
    (ClassObj TempDisplay ∉ l1) ∧
    Subject.remove (ClassObj TempDisplay) registered_twice
    = (Ok tt, set_subject (λ s, mkSubject (l1 ++ l2) (vars s)) registered_twice).
Proof.
  split.
  - apply (remove_first_occurrence_or_raise (ClassObj Observer) driver_setup).
    vm_compute. intros Hin. apply list_elem_of_In in Hin. simpl in Hin.
    destruct Hin as [?|[?|[]]]; discriminate.
  - apply (remove_first_occurrence_or_raise (ClassObj TempDisplay) registered_twice).
    vm_compute. apply list_elem_of_In. simpl. auto.
Defined.

(** C7.  Only [register] and [remove] change the registry: [notify], each
    turn of its loop, [update], the [on_change] bodies and [_get_vars] leave
    the whole subject as it was, however they end; [change_measurements]
    leaves the registry as it was and rebinds [temp] only. *)
Theorem registry_changes_only_by_register_and_remove (st : state) :
  subject (Subject.notify st).2 = subject st ∧
  (∀ o, subject (Subject.notify_body o st).2 = subject st) ∧
  (∀ self data, subject (Observer.update self data st).2 = subject st) ∧
  (∀ f xs, subject (Observer.apply_objs f xs st).2 = subject st) ∧
  subject (Subject._get_vars st).2 = subject st ∧
  ∀ v, let s' := subject (CpuSensor.change_measurements v st).2 in
       _observers s' = _observers (subject st) ∧
       vars s' = dict_set "temp" v (vars (subject st)) ∧
       ∀ name, name ≠ "temp" → dict_get name (vars s') = dict_get name (vars (subject st)).
Proof.
  split; [apply notify_keeps_subject|].
  split; [intros o; apply notify_body_keeps_subject|].
  split; [intros self data; apply update_keeps_subject|].
  split; [intros f xs; by apply on_change_keeps|].
  split; [done|].
  intros v. simpl. rewrite change_measurements_subject. simpl.
  split; [done|]. split; [done|].
  intros name Hne. by apply dict_get_set_ne.
Qed.

Lemma registry_changes_only_by_register_and_remove_witness :
  "load" ≠ "temp" ∧
  dict_get "load" (vars (subject (CpuSensor.change_measurements (VInt 60) driver_after_95).2))
  = dict_get "load" (vars (subject driver_after_95)) ∧
  _observers (subject (Subject.notify driver_after_95).2)
  = [ClassObj CpuController; ClassObj TempDisplay].
Proof.
  assert ("load" ≠ "temp") as Hne by discriminate.
  destruct (registry_changes_only_by_register_and_remove driver_after_95)
    as (Hnotify & _ & _ & _ & _ & Hchange).
  split; [exact Hne|]. split.
  - apply (Hchange (VInt 60)), Hne.
  - rewrite Hnotify. vm_compute; reflexivity.
Defined.

Lemma filter_public_inr (d : snapshot) :
  filter (λ p : string * (list obj + value), startswith_underscore p.1 = false)
         (prod_map id inr <$> d)
  = prod_map id inr <$> filter (λ p, startswith_underscore p.1 = false) d.
Proof.
  induction d as [|[k v] d IH]; [done|].
  rewrite fmap_cons, !filter_cons, IH. simpl.
  by destruct (decide (startswith_underscore k = false)).
Qed.

Lemma notify_Ok_calls st st' :
  Subject.notify st = (Ok tt, st') →
  new_calls st st' = _observers (subject st) ≫= calls_of (Subject.get_vars_of (subject st)).
Proof.
  intros H. apply notify_log in H as (_ & served & rest & part & Hl & Hc & -> & ->).
  rewrite app_nil_r in Hl, Hc. apply new_calls_app. by rewrite Hl.
Qed.

Lemma notify_first_call st o rest callee :
  _observers (subject st) = o :: rest →
  lookup_attr (heap st) o "update" = Some callee →
  dict_get "_get_vars" (vars (subject st)) = None →
  head (new_calls st (Subject.notify st).2)
  = Some (Call o "update" [AObj o; AData (Subject.get_vars_of (subject st))]).
Proof.
  intros Hreg Hl Hg.
  assert (∃ r1 st1, call_with_data callee o (Subject.get_vars_of (subject st))
            (set_calls (λ l, l ++ [Call o "update"
               [AObj o; AData (Subject.get_vars_of (subject st))]]) st) = (r1, st1) ∧
            ∃ k, calls st1 = calls st ++ Call o "update"
               [AObj o; AData (Subject.get_vars_of (subject st))] :: k)
    as (r1 & st1 & H1 & k & Hc1).
  { destruct (call_with_data _ _ _ _) as [r1 st1] eqn:H1. exists r1, st1.
    split; [done|].
    destruct callee as [v|f|self f]; simpl in H1.
    - injection H1 as <- <-. by exists [].
    - destruct f; simpl in H1; try (injection H1 as <- <-; by exists []).
      apply update_log in H1 as [Hc|[Hc _]]; rewrite Hc; simpl;
        rewrite <- ?app_assoc; by eexists.
    - destruct f; simpl in H1; injection H1 as <- <-; by exists []. }
  destruct (Subject.notify st) as [r st'] eqn:H. simpl.
  unfold Subject.notify, bind, gets in H. rewrite Hreg in H. simpl in H.
  unfold bind in H. rewrite notify_body_run, Hl, Hg, H1 in H.
  assert (∃ k', calls st' = calls st1 ++ k') as [k' Hk'].
  { destruct r1 as [[]|e1]; [|injection H as <- <-; exists []; by rewrite app_nil_r].
    apply notify_loop_log in H as (_ & served & rest' & part & _ & Hc & _). eauto. }
  unfold new_calls. rewrite Hk', Hc1, <- app_assoc, drop_app_length. done.
Qed.

(** C8.  [notify] hands to [update], next to the observer, the list that
    [_get_vars] computes: the first entry is called with it as soon as its
    [update] is found, and a notification that ends normally has made
    exactly these calls, entry by entry, and has left every pair of the
    list on every registered observer.  That list holds exactly the pairs
    of the attributes whose names do not start with an underscore, in
    dictionary order, so never the registry.  For a sensor whose attributes
    were assigned by its own methods only, the list pushed by
    [change_measurements(v)] is [("temp", v)]. *)
Theorem notify_passes_the_public_attributes (st : state) :
  let s := subject st in
  (∀ c, c ∈ new_calls st (Subject.notify st).2 → method c = "update" →
        args c = [AObj (receiver c); AData (Subject.get_vars_of s)]) ∧
  Subject._get_vars st = (Ok (Subject.get_vars_of s), st) ∧
  (∀ key v, (key, v) ∈ Subject.get_vars_of s ↔
            startswith_underscore key = false ∧ dict_get key (vars s) = Some v) ∧
  (NoDup (vars s).*1 →
   prod_map id inr <$> Subject.get_vars_of s = public_attributes s) ∧
  ("_observers" ∉ (Subject.get_vars_of s).*1) ∧
  (sensor_vars s →
   ∀ v c, c ∈ new_calls st (CpuSensor.change_measurements v st).2 →
          method c = "update" →
          args c = [AObj (receiver c); AData [("temp", v)]]) ∧
  (∀ ops, sensor_vars (subject (run_ops ops (initial CpuSensor.__init__)))) ∧
  (∀ o rest callee,
     _observers s = o :: rest →
     lookup_attr (heap st) o "update" = Some callee →
     dict_get "_get_vars" (vars s) = None →
     head (new_calls st (Subject.notify st).2)
     = Some (Call o "update" [AObj o; AData (Subject.get_vars_of s)])) ∧
  ((Subject.notify st).1 = Ok tt →
   new_calls st (Subject.notify st).2 = _observers s ≫= calls_of (Subject.get_vars_of s) ∧
   ∀ o key v, o ∈ _observers s → (key, v) ∈ Subject.get_vars_of s →
              lookup_attr (heap (Subject.notify st).2) o key = Some (AVal v)) ∧
  (sensor_vars s →
   ∀ v, (CpuSensor.change_measurements v st).1 = Ok tt →
        new_calls st (CpuSensor.change_measurements v st).2
        = _observers s ≫= calls_of [("temp", v)]).
Proof.
  assert (∀ st c, c ∈ new_calls st (Subject.notify st).2 → method c = "update" →
            args c = [AObj (receiver c); AData (Subject.get_vars_of (subject st))]) as Hshape.
  { clear. intros st c Hin Hm. destruct (Subject.notify st) as [r st'] eqn:H.
    apply notify_call_shapes in H as (new & Hc & Hnew).
    simpl in Hin. rewrite (new_calls_app _ _ _ Hc) in Hin.
    destruct (Hnew c Hin) as [-> | Hon]; [done|].
    rewrite Hon in Hm. discriminate. }
  assert (∀ v, sensor_vars (subject st) →
            Subject.get_vars_of
              (subject (set_subject
                 (λ s, mkSubject (_observers s) (dict_set "temp" v (vars s))) st))
            = [("temp", v)]) as Hsnap.
  { intros v [Hv | [u Hv]]; unfold Subject.get_vars_of,
      Subject.dict_keys; simpl; rewrite Hv; reflexivity. }
  cbv zeta. split; [apply Hshape|]. split; [done|].
  split; [apply get_vars_of_elem|].
  split; [|split; [|split; [|split; [|split; [|split]]]]].
  - intros Hnd. rewrite get_vars_of_NoDup by done.
    unfold public_attributes, attributes. rewrite filter_cons. simpl.
    by rewrite filter_public_inr.
  - intros Hin. apply list_elem_of_fmap in Hin as ([k v] & Hk & Hin).
    simpl in Hk. subst k. by apply get_vars_of_elem in Hin as [? _].
  - intros Hs v c Hin Hm.
    destruct (CpuSensor.change_measurements v st) as [r st'] eqn:H.
    apply change_measurements_loop in H as [(_ & _ & ->)|[_ H]].
    { unfold new_calls in Hin. simpl in Hin. rewrite drop_all in Hin.
      by apply elem_of_nil in Hin. }
    set (st0 := set_subject _ st) in H.
    assert (Subject.notify st0 = (r, st')) as Hn by done.
    assert (c ∈ new_calls st0 (Subject.notify st0).2) as Hin0 by (by rewrite Hn).
    rewrite (Hshape st0 c Hin0 Hm). do 3 f_equal. by apply Hsnap.
  - intros ops. apply run_ops_sensor_vars. by left.
  - intros o rest callee. apply notify_first_call.
  - intros HOk. destruct (Subject.notify st) as [r st'] eqn:H.
    simpl in *. subst r. split; [by apply notify_Ok_calls|].
    intros o key v Ho Hkv. apply lookup_attr_own.
    unfold Subject.notify, bind, gets in H.
    eapply notify_loop_holds; [exact H| | |by left].
    + intros w Hw. apply get_vars_of_elem in Hw as [_ Hw].
      apply get_vars_of_elem in Hkv as [_ Hkv]. congruence.
    + apply list_elem_of_fmap. by exists (key, v).
  - intros Hs v HOk.
    destruct (CpuSensor.change_measurements v st) as [r st'] eqn:H.
    simpl in *. subst r.
    apply change_measurements_loop in H as [(_ & ? & _)|[_ H]]; [done|].
    set (st0 := set_subject _ st) in H.
    assert (Subject.notify st0 = (Ok tt, st')) as Hn by done.
    apply notify_Ok_calls in Hn.
    assert (Subject.get_vars_of (subject st0) = [("temp", v)]) as Hsn
      by apply (Hsnap v Hs).
    rewrite Hsn in Hn. exact Hn.
Qed.

Lemma notify_passes_the_public_attributes_witness :
  NoDup (vars (subject driver_after_95)).*1 ∧
  prod_map id inr <$> Subject.get_vars_of (subject driver_after_95)
  = [("temp", @inr (list obj) value (VInt 95))] ∧
  (Subject.notify driver_after_95).1 = Ok tt ∧
  new_calls driver_after_95 (Subject.notify driver_after_95).2
  = calls_of [("temp", VInt 95)] (ClassObj CpuController)
    ++ calls_of [("temp", VInt 95)] (ClassObj TempDisplay).
Proof.
  assert (NoDup (vars (subject driver_after_95)).*1) as Hnd.
  { vm_compute. apply NoDup_singleton. }
  assert ((Subject.notify driver_after_95).1 = Ok tt) as HOk
    by (vm_compute; reflexivity).
  destruct (notify_passes_the_public_attributes driver_after_95)
    as (_ & _ & _ & Hpub & _ & _ & _ & _ & Hall & _).
  split; [exact Hnd|]. split; [|split; [exact HOk|]].
  - rewrite (Hpub Hnd). vm_compute; reflexivity.
  - destruct (Hall HOk) as [-> _]. vm_compute; reflexivity.
Defined.

(** C9.  With an empty registry, on a sensor that holds no attribute of its
    own named [notify], as is every sensor built by [CpuSensor()] and used
    through its methods, [change_measurements(v)] ends normally; it binds
    [temp] on the sensor and does nothing else: no output, no call, no
    attribute written on any observer. *)
Theorem change_measurements_without_observers (v : value) (st : state) :
  _observers (subject st) = [] →
  dict_get "notify" (vars (subject st)) = None
  ∨ (∃ ops, st = run_ops ops (initial CpuSensor.__init__)) →
  CpuSensor.change_measurements v st
  = (Ok tt, set_subject (λ s, mkSubject [] (dict_set "temp" v (vars s))) st) ∧
  stdout (CpuSensor.change_measurements v st).2 = stdout st ∧
  calls (CpuSensor.change_measurements v st).2 = calls st ∧
  heap (CpuSensor.change_measurements v st).2 = heap st.
Proof.
  intros Hreg Hor.
  assert (dict_get "notify" (vars (subject st)) = None) as Hn.
  { destruct Hor as [Hn|[ops ->]]; [done|].
    apply sensor_vars_get; [|done]. apply run_ops_sensor_vars. by left. }
  assert (CpuSensor.change_measurements v st
          = (Ok tt, set_subject (λ s, mkSubject [] (dict_set "temp" v (vars s))) st)) as ->.
  { rewrite change_measurements_run_eq, Hn, Hreg. cbv zeta. simpl.
    unfold ret, set_subject. simpl. by rewrite Hreg. }
  done.
Qed.

Lemma change_measurements_without_observers_witness :
  _observers (subject (initial CpuSensor.__init__)) = [] ∧
  dict_get "notify" (vars (subject (initial CpuSensor.__init__))) = None ∧
  CpuSensor.change_measurements (VInt 60) (initial CpuSensor.__init__)
  = (Ok tt, initial (mkSubject [] [("temp", VInt 60)])) ∧
  stdout (CpuSensor.change_measurements (VInt 60) (initial CpuSensor.__init__)).2 = "".
Proof.
  destruct (change_measurements_without_observers (VInt 60) (initial CpuSensor.__init__))
    as (Hrun & Hout & _); [reflexivity|left; reflexivity|].
  split; [reflexivity|]. split; [reflexivity|]. split; [exact Hrun|exact Hout].
Defined.

(** [update], step by step: the copying loop, then the call of whatever
    [self.on_change] is, with [self] as its one written argument. *)
Lemma update_run self data st :
  Observer.update self data st
  = let st1 := (for_each data (λ '(name, val), setattr self name val) st).2 in
    match lookup_attr (heap st1) self "on_change" with
    | None => (Raise (AttributeError "on_change"), st1)
    | Some callee =>
        Observer.call_objs callee [self]
          (set_calls (λ l, l ++ [Call self "on_change" [AObj self]]) st1)
    end.
Proof.
  unfold Observer.update, bind at 1.
  destruct (setattr_loop_spec self data st) as (st1 & -> & _). cbv zeta. simpl.
  unfold bind at 1, getattr.
  by destruct (lookup_attr (heap st1) self "on_change").
Qed.

(** C10.  [notify] passes the observer explicitly, next to the snapshot, to
    the [update] it finds on that observer, and [update], once it has copied
    the snapshot, calls the [on_change] it finds on the observer with the
    observer as explicit argument.  Through a class these are plain
    functions and the arguments fit: the class's own [on_change] runs on the
    class, and a reading that can be printed is pushed to registered classes
    without failure (methods intact, nothing on the sensor hiding a method);
    a notification that ends normally has met classes only and has made both
    calls for each.  Through an instance the function comes back bound and
    receives one argument too many: [notify], and [update] in its turn,
    raise the arity error.  The observer classes cannot be instantiated in
    the first place, since [update] is abstract in all of them. *)
Theorem observers_must_be_registered_as_classes :
  (∀ st c, c ∈ new_calls st (Subject.notify st).2 →
     c = Call (receiver c) "update"
           [AObj (receiver c); AData (Subject.get_vars_of (subject st))]
     ∨ c = Call (receiver c) "on_change" [AObj (receiver c)]) ∧
  (∀ st t, Forall is_class (_observers (subject st)) →
           methods_intact (heap st) →
           plain_vars (subject st) →
           unshadowed (subject st) →
           (Z.abs t < 10 ^ 4300)%Z →
           (CpuSensor.change_measurements (VInt t) st).1 = Ok tt) ∧
  (∀ st, (Subject.notify st).1 = Ok tt →
         Forall is_class (_observers (subject st)) ∧
         new_calls st (Subject.notify st).2
         = _observers (subject st) ≫= calls_of (Subject.get_vars_of (subject st))) ∧
  (∀ st c n rest,
     _observers (subject st) = Instance c n :: rest →
     lookup_attr (heap st) (Instance c n) "update"
     = Some (ABound (Instance c n) Observer_update) →
     dict_get "_get_vars" (vars (subject st)) = None →
     Subject.notify st
     = (Raise (TypeError (WrongArity 2 3)),
        set_calls (λ l, l ++ [Call (Instance c n) "update"
                                [AObj (Instance c n);
                                 AData (Subject.get_vars_of (subject st))]]) st)) ∧
  (∀ c n, lookup_attr ∅ (Instance c n) "update"
          = Some (ABound (Instance c n) Observer_update) ∧
          lookup_attr ∅ (Instance c n) "on_change"
          = Some (ABound (Instance c n) (on_change_of c))) ∧
  (∀ self f st, arity f = 1%nat →
     Observer.call_objs (ABound self f) [self] st
     = (Raise (TypeError (WrongArity 1 2)), st)) ∧
  (∀ id, instantiate CpuController id = Raise (TypeError (AbstractClass ["update"])) ∧
         instantiate TempDisplay id = Raise (TypeError (AbstractClass ["update"])) ∧
         instantiate Observer id
         = Raise (TypeError (AbstractClass ["update"; "on_change"]))) ∧
  (∀ self data st callee,
     lookup_attr
       (heap (for_each data (λ '(name, val), setattr self name val) st).2) self "on_change"
     = Some callee →
     Observer.update self data st
     = Observer.call_objs callee [self]
         (set_calls (λ l, l ++ [Call self "on_change" [AObj self]])
            (for_each data (λ '(name, val), setattr self name val) st).2)) ∧
  (∀ c data st,
     methods_intact (heap st) →
     "on_change" ∉ data.*1 →
     Observer.update (ClassObj c) data st
     = Observer.apply_objs (on_change_of c) [ClassObj c]
         (set_calls (λ l, l ++ [Call (ClassObj c) "on_change" [AObj (ClassObj c)]])
            (for_each data (λ '(name, val), setattr (ClassObj c) name val) st).2)) ∧
  (∀ c n data st f,
     lookup_attr
       (heap (for_each data (λ '(name, val), setattr (Instance c n) name val) st).2)
       (Instance c n) "on_change"
     = Some (ABound (Instance c n) f) →
     arity f = 1%nat →
     (Observer.update (Instance c n) data st).1 = Raise (TypeError (WrongArity 1 2))).
Proof.
  assert (∀ self f st, arity f = 1%nat →
            Observer.call_objs (ABound self f) [self] st
            = (Raise (TypeError (WrongArity 1 2)), st)) as Hbound.
  { intros self [] st Ha; try done. }
  split; [|split; [|split; [|split; [|split; [|split; [|split; [|split; [|split]]]]]]]].
  - intros st c Hin. destruct (Subject.notify st) as [r st'] eqn:H.
    apply notify_call_shapes in H as (new & Hc & Hnew).
    simpl in Hin. rewrite (new_calls_app _ _ _ Hc) in Hin. auto.
  - intros st t Hl Hi Hp Hu Ht.
    assert (printable t = true) as Hpr by (by apply Z.ltb_lt).
    by destruct (change_measurements_ok st t Hl Hi Hp Hu Hpr) as (st' & -> & _).
  - intros st H. destruct (Subject.notify st) as [r st'] eqn:Hn.
    simpl in H. subst r. split; [|by apply notify_Ok_calls].
    unfold Subject.notify, bind, gets in Hn.
    by apply notify_loop_Ok_classes in Hn.
  - intros st c n rest Hreg Hl Hg.
    unfold Subject.notify, bind at 1, gets. rewrite Hreg. simpl.
    unfold bind at 1. by rewrite notify_body_run, Hl, Hg.
  - by intros [] n.
  - exact Hbound.
  - done.
  - intros self data st callee Hl. rewrite update_run. cbv zeta. by rewrite Hl.
  - intros c data st Hi Hn. rewrite update_run. cbv zeta.
    destruct (setattr_loop_spec (ClassObj c) data st)
      as (st1 & -> & _ & _ & _ & Hself & Hother). cbn [snd].
    assert (∀ k, attrs_of (heap st1) (ClassObj k) !! "on_change" = None) as Hi1.
    { intros k. destruct (decide (ClassObj k = ClassObj c)) as [->|Hne].
      - rewrite Hself, assign_all_lookup_notin by done. apply Hi.
      - rewrite Hother by done. apply Hi. }
    assert (lookup_attr (heap st1) (ClassObj c) "on_change"
            = Some (AFunc (on_change_of c))) as ->; [|done].
    destruct c; simpl; unfold class_dict_get; by rewrite ?Hi1.
  - intros c n data st f Hl Ha. rewrite update_run. cbv zeta. rewrite Hl.
    by rewrite Hbound.
Qed.

Lemma observers_must_be_registered_as_classes_witness :
  Subject.notify instance_registered
  = (Raise (TypeError (WrongArity 2 3)),
     set_calls (λ l, l ++ [Call (Instance CpuController 0) "update"
                             [AObj (Instance CpuController 0); AData []]])
       instance_registered).
Proof.
  destruct observers_must_be_registered_as_classes as (_ & _ & _ & H & _).
  apply (H instance_registered CpuController 0%nat []); reflexivity.
Defined.

(** The scenario of the driver: a reading of 95 makes the controller panic
    and the display show it, in registration order. *)
Example driver_reading_95 :
  (driver_iteration 95 driver_setup).1 = Ok tt ∧
  stdout driver_after_95
  = newline +:+ newline +:+ "CpuController: Panic!" +:+ newline
    +:+ "Display: 95 Deg" +:+ newline.
Proof. by vm_compute. Qed.

(** One iteration of the reading loop on the driver's kind of sensor. *)
Lemma driver_iteration_ok st t :
  Forall is_class (_observers (subject st)) →
  methods_intact (heap st) →
  sensor_vars (subject st) →
  printable t = true →
  ∃ st', driver_iteration t st = (Ok tt, st') ∧
    CpuSensor.change_measurements (VInt t) st = (Ok tt, st') ∧
    methods_intact (heap st') ∧
    subject st' = mkSubject (_observers (subject st)) (dict_set "temp" (VInt t) (vars (subject st))) ∧
    stdout st' = stdout st +:+ reports (_observers (subject st)) t.
Proof.
  intros Hl Hi Hv Ht.
  assert (plain_vars (subject st)) as Hp
    by (split; by apply sensor_vars_get).
  assert (unshadowed (subject st)) as Hu
    by (split; by apply sensor_vars_get).
  destruct (change_measurements_ok st t Hl Hi Hp Hu Ht) as (st' & H & Hi' & _ & _ & Hout).
  exists st'. unfold driver_iteration. rewrite call_method_run.
  rewrite sensor_vars_get by done. split; [done|]. split; [done|].
  split; [done|]. split; [|done].
  pose proof (change_measurements_subject (VInt t) st) as Hs.
  by rewrite H in Hs.
Qed.

(** The reading loop ends normally for readings that can be printed,
    however long it runs. *)
Lemma driver_loop_ends_normally (readings : list Z) :
  Forall (λ t, printable t = true) readings →
  (driver_loop readings driver_setup).1 = Ok tt.
Proof.
  assert (∀ st, Forall (λ t, printable t = true) readings →
                Forall is_class (_observers (subject st)) →
                methods_intact (heap st) → sensor_vars (subject st) →
                (driver_loop readings st).1 = Ok tt) as Hinv.
  { induction readings as [|z zs IH]; intros st Hr Hl Hi Hv; [done|].
    apply Forall_cons in Hr as [Hz Hr].
    unfold driver_loop. simpl. unfold bind.
    destruct (driver_iteration_ok st z Hl Hi Hv Hz) as (st' & -> & _ & Hi' & Hs & _).
    apply IH; [done| |done|]; rewrite Hs; [done|by apply sensor_vars_change]. }
  intros Hr. apply Hinv; [done| | |by left].
  - repeat constructor.
  - intros k. unfold attrs_of. simpl. by rewrite lookup_empty.
Qed.

(** So it does for the readings of [randint(50, 110)]. *)
Lemma driver_loop_randint (readings : list Z) :
  Forall (λ t, (50 ≤ t ≤ 110)%Z) readings →
  (driver_loop readings driver_setup).1 = Ok tt.
Proof.
  intros Hr. apply driver_loop_ends_normally.
  eapply Forall_impl; [exact Hr|]. intros t Ht. by apply printable_50_110.
Qed.

(** * Further properties of the program *)

(** X4.  Take a sensor whose registry holds observer classes only, whose
    classes still have their methods ([methods_intact]), and which has no
    attribute of its own named [update], [on_change], [notify] or
    [_get_vars].  A reading of any value then ends and prints as
    [notification] describes: each class prints its report in registration
    order until one raises.  An integer reading of at most 4300 digits ends
    normally and prints every report.  A longer integer raises [ValueError]
    when the display class is registered and ends normally when it is not.
    A text reading raises [TypeError] when the controller class is
    registered, and ends normally when it is not. *)
Theorem reading_outcome_on_classes (v : value) (st : state) :
  Forall is_class (_observers (subject st)) →
  methods_intact (heap st) →
  plain_vars (subject st) →
  unshadowed (subject st) →
  (CpuSensor.change_measurements v st).1 = (notification (_observers (subject st)) v).1 ∧
  stdout (CpuSensor.change_measurements v st).2
  = stdout st +:+ (notification (_observers (subject st)) v).2 ∧
  (∀ t, v = VInt t → (Z.abs t < 10 ^ 4300)%Z →
        (CpuSensor.change_measurements v st).1 = Ok tt ∧
        stdout (CpuSensor.change_measurements v st).2
        = stdout st +:+ reports (_observers (subject st)) t) ∧
  (∀ t, v = VInt t → (10 ^ 4300 ≤ Z.abs t)%Z →
        (ClassObj TempDisplay ∈ _observers (subject st) →
         (CpuSensor.change_measurements v st).1 = Raise ValueError) ∧
        (ClassObj TempDisplay ∉ _observers (subject st) →
         (CpuSensor.change_measurements v st).1 = Ok tt)) ∧
  (∀ w, v = VStr w →
        (ClassObj CpuController ∈ _observers (subject st) →
         (CpuSensor.change_measurements v st).1 = Raise (TypeError BadOperand)) ∧
        (ClassObj CpuController ∉ _observers (subject st) →
         (CpuSensor.change_measurements v st).1 = Ok tt)).
Proof.
  intros Hl Hi Hp Hu.
  destruct (change_measurements_run st v Hl Hi Hp Hu) as (st' & -> & _ & Hout).
  cbn [fst snd]. split; [done|]. split; [done|].
  assert (∀ c o, o ∈ _observers (subject st) → class_of o = c → ClassObj c ∈ _observers (subject st))
    as Hcls.
  { intros c o Ho Hc. rewrite Forall_forall in Hl. specialize (Hl o Ho).
    destruct o as [k|]; [|done]. simpl in Hc. by subst k. }
  split; [|split].
  - intros t -> Ht.
    assert (printable t = true) as Hpr by (by apply Z.ltb_lt).
    by rewrite Hout, notification_int.
  - intros t -> Ht.
    assert (printable t = false) as Hpr by (by apply Z.ltb_ge).
    split.
    + intros Hin. apply notification_long_display; [done|]. eauto.
    + intros Hn. apply notification_int_no_display.
      intros o Ho Hc. apply Hn. eauto.
  - intros w ->. split.
    + intros Hin. apply notification_str_controller. eauto.
    + intros Hn. apply notification_str_no_controller.
      intros o Ho Hc. apply Hn. eauto.
Qed.

Lemma reading_outcome_on_classes_witness :
  Forall is_class (_observers (subject driver_setup)) ∧
  methods_intact (heap driver_setup) ∧
  plain_vars (subject driver_setup) ∧
  unshadowed (subject driver_setup) ∧
  (CpuSensor.change_measurements (VStr "hot") driver_setup).1 = Raise (TypeError BadOperand) ∧
  stdout driver_after_text = newline +:+ newline +:+ "CpuController: " ∧
  (CpuSensor.change_measurements (VInt 73) driver_setup).1 = Ok tt.
Proof.
  assert (Forall is_class (_observers (subject driver_setup))) as Hl
    by (repeat constructor).
  assert (methods_intact (heap driver_setup)) as Hi
    by (intros k; unfold attrs_of; simpl; by rewrite lookup_empty).
  assert (plain_vars (subject driver_setup)) as Hp by done.
  assert (unshadowed (subject driver_setup)) as Hu by done.
  destruct (reading_outcome_on_classes (VStr "hot") driver_setup Hl Hi Hp Hu)
    as (_ & Hout & _ & _ & Hstr).
  destruct (reading_outcome_on_classes (VInt 73) driver_setup Hl Hi Hp Hu)
    as (_ & _ & Hint & _ & _).
  split; [exact Hl|]. split; [exact Hi|]. split; [exact Hp|]. split; [exact Hu|].
  split; [|split].
  - apply (Hstr "hot" eq_refl). vm_compute. apply list_elem_of_In. simpl. auto.
  - unfold driver_after_text. rewrite Hout. vm_compute; reflexivity.
  - apply (Hint 73 eq_refl). apply Z.ltb_lt. vm_compute; reflexivity.
Defined.

(** ** What a notification writes, and where *)

(** Whatever a run of the loop does, an object keeps a value it holds under
    a name on which the snapshot agrees. *)
Lemma notify_loop_preserves l st r st' o name v :
  for_each l Subject.notify_body st = (r, st') →
  (∀ w, (name, w) ∈ Subject.get_vars_of (subject st) → w = v) →
  attrs_of (heap st) o !! name = Some v →
  attrs_of (heap st') o !! name = Some v.
Proof.
  revert st. induction l as [|o1 l IH]; intros st H Hagree Hv; simpl in H.
  - by injection H as <- <-.
  - apply bind_inv in H as [([] & st1 & H1 & H)|(e & H1 & _)].
    + pose proof (keeps_eq subject _ _ _ _ (notify_body_keeps_subject o1) H1) as Hs.
      eapply IH; [exact H|by rewrite Hs|]. eapply notify_body_holds; eauto.
    + eapply notify_body_holds; eauto.
Qed.

(** A run of the loop writes only on the objects of the list, and only
    under names of the snapshot. *)
Lemma notify_loop_frame l st r st' o name :
  for_each l Subject.notify_body st = (r, st') →
  o ∉ l ∨ name ∉ (Subject.get_vars_of (subject st)).*1 →
  attrs_of (heap st') o !! name = attrs_of (heap st) o !! name.
Proof.
  revert st. induction l as [|o1 l IH]; intros st H Hor; simpl in H.
  - by injection H as <- <-.
  - assert (∀ r1 st1, Subject.notify_body o1 st = (r1, st1) →
              attrs_of (heap st1) o !! name = attrs_of (heap st) o !! name) as Hstep.
    { intros r1 st1 H1. apply notify_body_heap in H1 as (Hother & Hself & _).
      destruct (decide (o = o1)) as [->|Hne]; [|by rewrite Hother].
      destruct Hself as [-> | ->]; [done|].
      destruct Hor as [Hn|Hn]; [exfalso; apply Hn; by left|].
      by apply assign_all_lookup_notin. }
    apply bind_inv in H as [([] & st1 & H1 & H)|(e & H1 & _)]; [|by eapply Hstep].
    pose proof (keeps_eq subject _ _ _ _ (notify_body_keeps_subject o1) H1) as Hs.
    rewrite <- (Hstep _ _ H1). eapply IH; [exact H|]. rewrite Hs.
    destruct Hor as [Hn|Hn]; [left|by right].
    intros Hin. apply Hn. by right.
Qed.

(** A run of the loop that raises has served a first part of the list
    completely and has left every object outside that part and the failing
    entry as it was. *)
Lemma notify_loop_raise l st e st' name v :
  for_each l Subject.notify_body st = (Raise e, st') →
  (∀ w, (name, w) ∈ Subject.get_vars_of (subject st) → w = v) →
  name ∈ (Subject.get_vars_of (subject st)).*1 →
  ∃ served o rest, l = served ++ o :: rest ∧
    (∀ o', o' ∈ served → attrs_of (heap st') o' !! name = Some v) ∧
    (∀ o', o' ∉ served → o' ≠ o → attrs_of (heap st') o' = attrs_of (heap st) o').
Proof.
  revert st. induction l as [|o1 l IH]; intros st H Hagree Hin; simpl in H; [done|].
  apply bind_inv in H as [([] & st1 & H1 & H)|(e1 & H1 & _)].
  - pose proof (keeps_eq subject _ _ _ _ (notify_body_keeps_subject o1) H1) as Hs.
    destruct (IH st1 H) as (served & o & rest & -> & Hserved & Hrest);
      [by rewrite Hs|by rewrite Hs|].
    exists (o1 :: served), o, rest. split; [done|]. split.
    + intros o' [->|Ho']%elem_of_cons; [|by apply Hserved].
      eapply notify_loop_preserves; [exact H|by rewrite Hs|].
      apply notify_body_heap in H1 as (_ & _ & ->); [|done].
      apply assign_all_lookup_agree; [done|by right].
    + intros o' Hn Ho. apply not_elem_of_cons in Hn as [Hne Hn].
      rewrite Hrest by done.
      apply notify_body_heap in H1 as (Hother & _ & _). by apply Hother.
  - exists [], o1, l. split; [done|]. split; [by intros ? ?%elem_of_nil|].
    intros o' _ Hne. apply notify_body_heap in H1 as (Hother & _ & _).
    by apply Hother.
Qed.

(** X3.  When [change_measurements(v)] raises, the sensor holds [v] all the
    same.  Either the sensor has an attribute of its own named [notify],
    the exception is the [TypeError] of calling it, and no object was
    touched; or the registry splits into the observers served, the failing
    one and the rest: reading [temp] on a served observer gives [v], and
    every object that is neither served nor the failing one has the
    attributes assigned on the object itself as they were before the
    call. *)
Theorem failed_notification_is_partial (v : value) (st st' : state) (e : exn) :
  CpuSensor.change_measurements v st = (Raise e, st') →
  dict_get "temp" (vars (subject st')) = Some v ∧
  ((is_Some (dict_get "notify" (vars (subject st))) ∧
    e = TypeError NotCallable ∧ heap st' = heap st)
   ∨ (dict_get "notify" (vars (subject st)) = None ∧
      ∃ served o rest, _observers (subject st) = served ++ o :: rest ∧
        (∀ o', o' ∈ served → lookup_attr (heap st') o' "temp" = Some (AVal v)) ∧
        (∀ o', o' ∉ served → o' ≠ o → attrs_of (heap st') o' = attrs_of (heap st) o'))).
Proof.
  intros H.
  pose proof (change_measurements_subject v st) as Hs. rewrite H in Hs. simpl in Hs.
  rewrite Hs. simpl. split; [apply dict_get_set_eq|].
  apply change_measurements_loop in H. cbv zeta in H.
  destruct H as [(Hsh & [= ->] & ->)|[Hn H]]; [by left|right]. split; [done|].
  set (st0 := set_subject _ st) in H.
  destruct (snapshot_temp (subject st0) v) as [Hagree Hin];
    [apply dict_get_set_eq|].
  destruct (notify_loop_raise _ _ _ _ "temp" v H Hagree Hin)
    as (served & o & rest & Hl & Hserved & Hrest).
  exists served, o, rest. split; [exact Hl|]. split; [|exact Hrest].
  intros o' Ho'. by apply lookup_attr_own, Hserved.
Qed.

Lemma failed_notification_is_partial_witness :
  (∃ st', CpuSensor.change_measurements (VStr "hot") display_first
          = (Raise (TypeError BadOperand), st')) ∧
  dict_get "temp"
    (vars (subject (CpuSensor.change_measurements (VStr "hot") display_first).2))
  = Some (VStr "hot") ∧
  (∃ st', CpuSensor.change_measurements (VInt 70) notify_shadowed
          = (Raise (TypeError NotCallable), st')) ∧
  dict_get "temp"
    (vars (subject (CpuSensor.change_measurements (VInt 70) notify_shadowed).2))
  = Some (VInt 70).
Proof.
  split; [eexists; vm_compute; reflexivity|]. split.
  - eapply (failed_notification_is_partial (VStr "hot") display_first _
              (TypeError BadOperand)).
    vm_compute; reflexivity.
  - split; [eexists; vm_compute; reflexivity|].
    eapply (failed_notification_is_partial (VInt 70) notify_shadowed _
              (TypeError NotCallable)).
    vm_compute; reflexivity.
Defined.

(** X5.  A notification that ends normally has copied every public
    attribute of the subject onto every registered observer: reading any
    name of the snapshot on any of them gives the subject's value. *)
Theorem notification_copies_every_public_attribute (st st' : state) :
  Subject.notify st = (Ok tt, st') →
  ∀ o name w,
    o ∈ _observers (subject st) →
    startswith_underscore name = false →
    dict_get name (vars (subject st)) = Some w →
    lookup_attr (heap st') o name = Some (AVal w).
Proof.
  intros H o name w Ho Hpub Hw. apply lookup_attr_own.
  unfold Subject.notify, bind, gets in H.
  eapply notify_loop_holds; [exact H| | |by left].
  - intros w' Hw'. apply get_vars_of_elem in Hw' as [_ Hw']. congruence.
  - apply list_elem_of_fmap. exists (name, w). split; [done|].
    by apply get_vars_of_elem.
Qed.

Lemma notification_copies_every_public_attribute_witness :
  Subject.notify driver_after_95 = (Ok tt, (Subject.notify driver_after_95).2) ∧
  lookup_attr (heap (Subject.notify driver_after_95).2) (ClassObj TempDisplay) "temp"
  = Some (AVal (VInt 95)).
Proof.
  assert (Subject.notify driver_after_95 = (Ok tt, (Subject.notify driver_after_95).2))
    as Hrun by (vm_compute; reflexivity).
  split; [exact Hrun|].
  apply (notification_copies_every_public_attribute _ _ Hrun).
  - vm_compute. apply list_elem_of_In. simpl. auto.
  - reflexivity.
  - vm_compute; reflexivity.
Defined.

Lemma assign_all_is_Some (data : snapshot) m name :
  is_Some (m !! name) → is_Some (assign_all data m !! name).
Proof.
  revert m. induction data as [|[k w] data IH]; intros m Hm; simpl; [done|].
  apply IH. apply lookup_insert_is_Some.
  destruct (decide (k = name)); [by left|by right].
Qed.

(** A run of the loop never takes an attribute away. *)
Lemma notify_loop_keeps_names l st r st' o name :
  for_each l Subject.notify_body st = (r, st') →
  is_Some (attrs_of (heap st) o !! name) →
  is_Some (attrs_of (heap st') o !! name).
Proof.
  revert st. induction l as [|o1 l IH]; intros st H Hs; simpl in H.
  - by injection H as <- <-.
  - assert (∀ r1 st1, Subject.notify_body o1 st = (r1, st1) →
              is_Some (attrs_of (heap st1) o !! name)) as Hstep.
    { intros r1 st1 H1. apply notify_body_heap in H1 as (Hother & Hself & _).
      destruct (decide (o = o1)) as [->|Hne]; [|by rewrite Hother].
      destruct Hself as [-> | ->]; [done|]. by apply assign_all_is_Some. }
    apply bind_inv in H as [([] & st1 & H1 & H)|(e & H1 & _)]; eauto.
Qed.

(** What a lookup gives depends only on the attributes assigned on the
    object itself and on the classes of its MRO. *)
Lemma mro_lookup_ext h h' ks name :
  (∀ k, k ∈ ks → attrs_of h' (ClassObj k) !! name = attrs_of h (ClassObj k) !! name) →
  mro_lookup h' ks name = mro_lookup h ks name.
Proof.
  induction ks as [|k ks IH]; intros Hks; [done|]. simpl.
  unfold class_dict_get. rewrite (Hks k) by (by left).
  rewrite IH; [done|]. intros k' Hk'. apply Hks. by right.
Qed.

Lemma lookup_attr_ext h h' o name :
  attrs_of h' o !! name = attrs_of h o !! name →
  (∀ k, k ∈ mro (class_of o) →
        attrs_of h' (ClassObj k) !! name = attrs_of h (ClassObj k) !! name) →
  lookup_attr h' o name = lookup_attr h o name.
Proof.
  intros Hown Hks. destruct o as [c|c n]; unfold lookup_attr; simpl in Hks.
  - by rewrite (mro_lookup_ext h h').
  - by rewrite Hown, (mro_lookup_ext h h').
Qed.

(** X6.  However it ends, [notify] writes only on registered observers and
    only under the names of the snapshot.  An object that is not in the
    registry keeps the attributes assigned on the object itself as they
    were; when no class of its MRO is in the registry either, reading any
    attribute on it gives what it gave before.  On any object, an attribute
    whose name is not a public attribute of the subject stays as it was,
    among the attributes assigned on the object itself and when read.  No
    attribute assigned on an object itself is ever deleted. *)
Theorem notify_writes_only_snapshot_names_on_registered (st : state) (o : obj) :
  (o ∉ _observers (subject st) →
   attrs_of (heap (Subject.notify st).2) o = attrs_of (heap st) o) ∧
  (o ∉ _observers (subject st) →
   (∀ k, k ∈ mro (class_of o) → ClassObj k ∉ _observers (subject st)) →
   ∀ name, lookup_attr (heap (Subject.notify st).2) o name = lookup_attr (heap st) o name) ∧
  (∀ name, dict_get name (vars (subject st)) = None ∨ startswith_underscore name = true →
           attrs_of (heap (Subject.notify st).2) o !! name = attrs_of (heap st) o !! name ∧
           lookup_attr (heap (Subject.notify st).2) o name = lookup_attr (heap st) o name) ∧
  (∀ name, is_Some (attrs_of (heap st) o !! name) →
           is_Some (attrs_of (heap (Subject.notify st).2) o !! name)).
Proof.
  destruct (Subject.notify st) as [r st'] eqn:H. simpl.
  unfold Subject.notify, bind, gets in H.
  assert (∀ name, dict_get name (vars (subject st)) = None ∨ startswith_underscore name = true →
            name ∉ (Subject.get_vars_of (subject st)).*1) as Hnot.
  { intros name Hname Hin. apply list_elem_of_fmap in Hin as ([k w] & -> & Hin).
    apply get_vars_of_elem in Hin as [Hpub Hg]. simpl in Hname.
    destruct Hname; congruence. }
  split; [|split; [|split]].
  - intros Hn. apply map_eq. intros name.
    eapply notify_loop_frame; [exact H|by left].
  - intros Hn Hks name. apply lookup_attr_ext.
    + eapply notify_loop_frame; [exact H|by left].
    + intros k Hk. eapply notify_loop_frame; [exact H|left]. by apply Hks.
  - intros name Hname. split.
    + eapply notify_loop_frame; [exact H|right]. by apply Hnot.
    + apply lookup_attr_ext.
      * eapply notify_loop_frame; [exact H|right]. by apply Hnot.
      * intros k _. eapply notify_loop_frame; [exact H|right]. by apply Hnot.
  - intros name Hsome. eapply notify_loop_keeps_names; eauto.
Qed.

Lemma notify_writes_only_snapshot_names_on_registered_witness :
  (ClassObj Observer ∉ _observers (subject driver_after_95)) ∧
  (∀ k, k ∈ mro (class_of (ClassObj Observer)) →
        ClassObj k ∉ _observers (subject driver_after_95)) ∧
  attrs_of (heap (Subject.notify driver_after_95).2) (ClassObj Observer)
  = attrs_of (heap driver_after_95) (ClassObj Observer) ∧
  lookup_attr (heap (Subject.notify driver_after_95).2) (ClassObj Observer) "temp"
  = lookup_attr (heap driver_after_95) (ClassObj Observer) "temp" ∧
  dict_get "speed" (vars (subject driver_after_95)) = None ∧
  lookup_attr (heap (Subject.notify driver_after_95).2) (ClassObj TempDisplay) "speed"
  = lookup_attr (heap driver_after_95) (ClassObj TempDisplay) "speed" ∧
  is_Some (attrs_of (heap driver_after_95) (ClassObj TempDisplay) !! "temp") ∧
  is_Some (attrs_of (heap (Subject.notify driver_after_95).2) (ClassObj TempDisplay) !! "temp").
Proof.
  assert (ClassObj Observer ∉ _observers (subject driver_after_95)) as Hn.
  { vm_compute. intros Hin. apply list_elem_of_In in Hin. simpl in Hin.
    destruct Hin as [?|[?|[]]]; discriminate. }
  assert (∀ k, k ∈ mro (class_of (ClassObj Observer)) →
               ClassObj k ∉ _observers (subject driver_after_95)) as Hks.
  { intros k Hk. apply list_elem_of_singleton in Hk as ->. exact Hn. }
  assert (dict_get "speed" (vars (subject driver_after_95)) = None) as Hsp
    by (vm_compute; reflexivity).
  assert (is_Some (attrs_of (heap driver_after_95) (ClassObj TempDisplay) !! "temp")) as Hsome
    by (vm_compute; eauto).
  destruct (notify_writes_only_snapshot_names_on_registered driver_after_95
              (ClassObj Observer)) as (Hown & Hread & _ & _).
  destruct (notify_writes_only_snapshot_names_on_registered driver_after_95
              (ClassObj TempDisplay)) as (_ & _ & Hname & Hkeep).
  split; [exact Hn|]. split; [exact Hks|]. split; [exact (Hown Hn)|].
  split; [exact (Hread Hn Hks "temp")|]. split; [exact Hsp|].
  split; [exact (proj2 (Hname "speed" (or_introl Hsp)))|].
  split; [exact Hsome|exact (Hkeep "temp" Hsome)].
Defined.

(** ** Using the sensor through its methods *)

Lemma notify_keeps_intact st :
  methods_intact (heap st) →
  plain_vars (subject st) →
  methods_intact (heap (Subject.notify st).2).
Proof.
  intros Hi [Hpu Hpo] k.
  destruct (Subject.notify st) as [r st'] eqn:H. simpl.
  unfold Subject.notify, bind, gets in H.
  rewrite !(notify_loop_frame _ _ _ _ (ClassObj k) _ H)
    by (right; by apply snapshot_names_plain).
  apply Hi.
Qed.

Lemma run_op_invariant p st :
  methods_intact (heap st) →
  plain_vars (subject st) →
  methods_intact (heap (run_op p st).2) ∧ plain_vars (subject (run_op p st).2).
Proof.
  intros Hi Hp. split.
  - destruct p as [o|o| |v]; simpl; rewrite call_method_run;
      (destruct (dict_get _ (vars (subject st))); [done|]).
    + done.
    + unfold Subject.remove, bind, gets. simpl. by destruct (list_remove o _).
    + by apply notify_keeps_intact.
    + rewrite change_measurements_run_eq. cbv zeta.
      destruct (dict_get "notify" (vars (subject st))); [done|].
      apply (notify_keeps_intact
               (set_subject (λ s, mkSubject (_observers s) (dict_set "temp" v (vars s))) st));
        [done|].
      destruct Hp. split; simpl; by rewrite dict_get_set_ne.
  - unfold plain_vars in *.
    destruct (run_op_subject p st) as [-> | (v & _ & ->)]; [done|].
    destruct Hp. by rewrite !dict_get_set_ne.
Qed.

(** X7.  No use of the sensor through [register], [remove], [notify] and
    [change_measurements] ever replaces a method of an observer class:
    starting where the methods are intact and the sensor has no public
    attribute named [update] or [on_change], every class still finds
    [Observer.update] under [update] and its own function under
    [on_change], whatever was registered and however the calls ended. *)
Theorem observer_methods_survive (ops : list op) (st : state) :
  methods_intact (heap st) →
  plain_vars (subject st) →
  methods_intact (heap (run_ops ops st)) ∧
  plain_vars (subject (run_ops ops st)) ∧
  ∀ c, lookup_attr (heap (run_ops ops st)) (ClassObj c) "update"
       = Some (AFunc Observer_update) ∧
       lookup_attr (heap (run_ops ops st)) (ClassObj c) "on_change"
       = Some (AFunc (on_change_of c)).
Proof.
  revert st. induction ops as [|p ops IH]; intros st Hi Hp; simpl.
  - split; [done|]. split; [done|]. intros c.
    split; [by apply lookup_attr_update_intact|by apply lookup_attr_on_change_intact].
  - destruct (run_op_invariant p st Hi Hp) as [Hi' Hp']. by apply IH.
Qed.

Lemma observer_methods_survive_witness :
  methods_intact (heap driver_setup) ∧
  plain_vars (subject driver_setup) ∧
  lookup_attr
    (heap (run_ops [OpChange (VStr "hot"); OpRegister (Instance TempDisplay 0);
                    OpNotify; OpChange (VInt 70)] driver_setup))
    (ClassObj CpuController) "on_change"
  = Some (AFunc CpuController_on_change).
Proof.
  assert (methods_intact (heap driver_setup)) as Hi
    by (intros k; unfold attrs_of; simpl; by rewrite lookup_empty).
  assert (plain_vars (subject driver_setup)) as Hp by done.
  split; [exact Hi|]. split; [exact Hp|].
  apply (observer_methods_survive _ driver_setup Hi Hp).
Defined.

Lemma list_remove_first x l1 l2 :
  x ∉ l1 → list_remove x (l1 ++ x :: l2) = Some (l1 ++ l2).
Proof.
  induction l1 as [|y l1 IH]; intros Hn; simpl.
  - by rewrite decide_True.
  - apply not_elem_of_cons in Hn as [Hne Hn].
    rewrite decide_False by done. by rewrite IH.
Qed.

(** X1.  [register(o)] followed by [remove(o)] ends normally.  It gives the
    state back as it was when [o] was not registered before; when it was,
    it is the earlier registration that goes, so [o] moves to the end of
    the registry. *)
Theorem register_then_remove (o : obj) (st : state) :
  (Subject.remove o (Subject.register o st).2).1 = Ok tt ∧
  (o ∉ _observers (subject st) →
   Subject.remove o (Subject.register o st).2 = (Ok tt, st)) ∧
  (∀ l1 l2, _observers (subject st) = l1 ++ o :: l2 → o ∉ l1 →
     Subject.remove o (Subject.register o st).2
     = (Ok tt, set_subject (λ s, mkSubject (l1 ++ l2 ++ [o]) (vars s)) st)).
Proof.
  destruct st as [[reg vs] h out cs].
  unfold Subject.remove, Subject.register, bind, gets, modify, set_subject. simpl.
  assert (o ∉ reg → list_remove o (reg ++ [o]) = Some reg) as Hfresh.
  { intros Hn. rewrite (list_remove_first o reg []) by done. by rewrite app_nil_r. }
  assert (∀ l1 l2, reg = l1 ++ o :: l2 → o ∉ l1 →
            list_remove o (reg ++ [o]) = Some (l1 ++ l2 ++ [o])) as Hold.
  { intros l1 l2 -> Hn. rewrite <- app_assoc. simpl.
    by rewrite (list_remove_first o l1 (l2 ++ [o])). }
  split; [|split].
  - destruct (decide (o ∈ reg)) as [Hin|Hn]; [|by rewrite Hfresh].
    destruct (list_remove o reg) as [l|] eqn:Hl;
      [|by apply list_remove_None in Hl].
    apply list_remove_Some in Hl as (l1 & l2 & Hreg & Hn1 & _).
    by rewrite (Hold l1 l2 Hreg Hn1).
  - intros Hn. by rewrite Hfresh.
  - intros l1 l2 Hreg Hn. by rewrite (Hold l1 l2 Hreg Hn).
Qed.

Lemma register_then_remove_witness :
  (ClassObj Observer ∉ _observers (subject driver_setup)) ∧
  Subject.remove (ClassObj Observer) (Subject.register (ClassObj Observer) driver_setup).2
  = (Ok tt, driver_setup) ∧
  _observers (subject (Subject.remove (ClassObj CpuController)
                         (Subject.register (ClassObj CpuController) driver_setup).2).2)
  = [ClassObj TempDisplay; ClassObj CpuController].
Proof.
  assert (ClassObj Observer ∉ _observers (subject driver_setup)) as Hn.
  { vm_compute. intros Hin. apply list_elem_of_In in Hin. simpl in Hin.
    destruct Hin as [?|[?|[]]]; discriminate. }
  destruct (register_then_remove (ClassObj Observer) driver_setup) as (_ & Hfresh & _).
  destruct (register_then_remove (ClassObj CpuController) driver_setup) as (_ & _ & Hold).
  split; [exact Hn|]. split; [exact (Hfresh Hn)|].
  rewrite (Hold [] [ClassObj TempDisplay]); [reflexivity|reflexivity|].
  apply not_elem_of_nil.
Defined.

Lemma change_measurements_receivers v st st' :
  CpuSensor.change_measurements v st = (Ok tt, st') →
  update_receivers (new_calls st st') = _observers (subject st) ∧
  ∀ o, o ∈ _observers (subject st) → attrs_of (heap st') o !! "temp" = Some v.
Proof.
  intros H.
  apply change_measurements_loop in H. cbv zeta in H.
  destruct H as [(_ & ? & _)|[_ H]]; [done|].
  set (st0 := set_subject _ st) in H.
  assert (Subject.notify st0 = (Ok tt, st')) as Hn by exact H.
  split.
  - apply notify_receivers in Hn as (new & Hc & _ & Hall).
    change (new_calls st st') with (new_calls st0 st').
    rewrite (new_calls_app _ _ _ Hc). by apply Hall.
  - intros o Ho.
    destruct (snapshot_temp (subject st0) v) as [Hagree Hin];
      [apply dict_get_set_eq|].
    eapply notify_loop_holds; [exact H|done|done|by left].
Qed.

(** X2.  [register] pushes nothing: it leaves the observers' attributes,
    the console and the call log as they were, so a new observer learns the
    reading only at the next change.  The next [change_measurements(v)]
    that ends normally has then called [update] on the earlier entries
    first and on the new one last, and the new one holds [v]. *)
Theorem registration_takes_effect_at_next_change (o : obj) (st : state) :
  heap (Subject.register o st).2 = heap st ∧
  stdout (Subject.register o st).2 = stdout st ∧
  calls (Subject.register o st).2 = calls st ∧
  ∀ v st', CpuSensor.change_measurements v (Subject.register o st).2 = (Ok tt, st') →
    update_receivers (new_calls (Subject.register o st).2 st')
    = _observers (subject st) ++ [o] ∧
    lookup_attr (heap st') o "temp" = Some (AVal v).
Proof.
  split; [done|]. split; [done|]. split; [done|].
  intros v st' H. apply change_measurements_receivers in H as [Hr Hh].
  split; [exact Hr|]. apply lookup_attr_own, Hh. simpl.
  apply elem_of_app. right. by left.
Qed.

Lemma registration_takes_effect_at_next_change_witness :
  (∃ st', CpuSensor.change_measurements (VInt 70)
            (Subject.register (ClassObj Observer) driver_after_95).2 = (Ok tt, st')) ∧
  lookup_attr (heap (Subject.register (ClassObj Observer) driver_after_95).2)
    (ClassObj Observer) "temp" = None ∧
  lookup_attr
    (heap (CpuSensor.change_measurements (VInt 70)
             (Subject.register (ClassObj Observer) driver_after_95).2).2)
    (ClassObj Observer) "temp" = Some (AVal (VInt 70)).
Proof.
  split; [eexists; vm_compute; reflexivity|]. split; [vm_compute; reflexivity|].
  destruct (registration_takes_effect_at_next_change (ClassObj Observer) driver_after_95)
    as (_ & _ & _ & Hnext).
  eapply Hnext. vm_compute; reflexivity.
Defined.

(** ** The reading loop *)

Lemma driver_loop_run readings st :
  Forall (λ t, printable t = true) readings →
  _observers (subject st) = [ClassObj CpuController; ClassObj TempDisplay] →
  methods_intact (heap st) →
  sensor_vars (subject st) →
  ∃ st', driver_loop readings st = (Ok tt, st') ∧
    stdout st' = stdout st +:+ driver_output readings ∧
    _observers (subject st') = _observers (subject st) ∧
    match last readings with
    | Some t =>
        vars (subject st') = [("temp", VInt t)] ∧
        ∀ o, o ∈ _observers (subject st) → attrs_of (heap st') o !! "temp" = Some (VInt t)
    | None => st' = st
    end.
Proof.
  revert st. induction readings as [|z zs IH]; intros st Hr Hreg Hi Hv.
  - exists st. by rewrite append_empty_r.
  - apply Forall_cons in Hr as [Hz Hr].
    assert (Forall is_class (_observers (subject st))) as Hl.
    { rewrite Hreg. by repeat constructor. }
    destruct (driver_iteration_ok st z Hl Hi Hv Hz)
      as (st1 & Hit & H1 & Hi1 & Hs1 & Hout1).
    assert (vars (subject st1) = [("temp", VInt z)]) as Hv1.
    { rewrite Hs1. simpl. by destruct Hv as [-> | [u ->]]. }
    assert (_observers (subject st1) = _observers (subject st)) as Hreg1
      by (by rewrite Hs1).
    destruct (IH st1) as (st' & H & Hout & Hreg' & Hlast).
    { done. } { by rewrite Hreg1. } { done. } { right. eauto. }
    exists st'. unfold driver_loop in *. simpl. unfold bind.
    rewrite Hit. split; [exact H|]. split; [|split; [by rewrite Hreg'|]].
    + rewrite Hout, Hout1, Hreg. simpl. rewrite append_empty_r.
      by rewrite !append_assoc.
    + rewrite last_cons. destruct (last zs) as [t|].
      * by rewrite Hreg1 in Hlast.
      * subst st'. split; [done|].
        by apply change_measurements_receivers in H1 as [_ Hh].
Qed.

(** X8.  The driver's loop ends normally for any readings of at most
    4300 decimal digits.  It has then printed, for each reading in turn,
    the controller's block followed by the display's line; the sensor's
    only attribute besides the registry is [temp], holding the last
    reading, and both observer classes hold the last reading too. *)
Theorem driver_loop_prints_every_reading (readings : list Z) :
  Forall (λ t, (Z.abs t < 10 ^ 4300)%Z) readings →
  (driver_loop readings driver_setup).1 = Ok tt ∧
  stdout (driver_loop readings driver_setup).2 = driver_output readings ∧
  ∀ t, last readings = Some t →
       subject (driver_loop readings driver_setup).2
       = mkSubject [ClassObj CpuController; ClassObj TempDisplay] [("temp", VInt t)] ∧
       lookup_attr (heap (driver_loop readings driver_setup).2)
         (ClassObj CpuController) "temp" = Some (AVal (VInt t)) ∧
       lookup_attr (heap (driver_loop readings driver_setup).2)
         (ClassObj TempDisplay) "temp" = Some (AVal (VInt t)).
Proof.
  intros Hr.
  assert (Forall (λ t, printable t = true) readings) as Hpr.
  { eapply Forall_impl; [exact Hr|]. intros t Ht. by apply Z.ltb_lt. }
  destruct (driver_loop_run readings driver_setup Hpr) as (st' & -> & Hout & Hreg & Hlast).
  - done.
  - intros k. unfold attrs_of. simpl. by rewrite lookup_empty.
  - by left.
  - cbn [fst snd]. split; [done|]. split; [exact Hout|].
    intros t Ht. rewrite Ht in Hlast. destruct Hlast as [Hv Hh]. split.
    + destruct (subject st') as [reg vs]. cbn [_observers vars] in *.
      by rewrite Hreg, Hv.
    + split; apply lookup_attr_own, Hh; apply list_elem_of_In; simpl; auto.
Qed.

Lemma driver_loop_prints_every_reading_witness :
  Forall (λ t, (Z.abs t < 10 ^ 4300)%Z) [95; 60] ∧
  last [95; 60] = Some 60 ∧
  stdout (driver_loop [95; 60] driver_setup).2
  = newline +:+ newline +:+ "CpuController: Panic!" +:+ newline
    +:+ "Display: 95 Deg" +:+ newline
    +:+ newline +:+ newline +:+ "CpuController: Everything under control" +:+ newline
    +:+ "Display: 60 Deg" +:+ newline ∧
  lookup_attr (heap (driver_loop [95; 60] driver_setup).2) (ClassObj TempDisplay) "temp"
  = Some (AVal (VInt 60)).
Proof.
  assert (Forall (λ t, (Z.abs t < 10 ^ 4300)%Z) [95; 60]) as Hr.
  { repeat constructor; apply Z.ltb_lt; vm_compute; reflexivity. }
  destruct (driver_loop_prints_every_reading [95; 60] Hr) as (_ & Hout & Hlast).
  split; [exact Hr|]. split; [reflexivity|]. split.
  - rewrite Hout. vm_compute; reflexivity.
  - by apply (Hlast 60 eq_refl).
Defined.

(** ** Attributes shared through the base class *)

(** A turn that ends normally has called [on_change], so the snapshot
    cannot have put a plain value under that name. *)
Lemma notify_body_Ok_on_change o st st' w :
  Subject.notify_body o st = (Ok tt, st') →
  ("on_change", w) ∈ Subject.get_vars_of (subject st) → False.
Proof.
  intros H Hin.
  apply notify_body_inv in H as [(_ & _ & e & ?)|[_ H]]; [done|].
  assert (∀ w', ("on_change", w') ∈ Subject.get_vars_of (subject st) → w' = w) as Hagree.
  { intros w' Hw'. apply get_vars_of_elem in Hw' as [_ Hw'].
    apply get_vars_of_elem in Hin as [_ Hin]. congruence. }
  unfold Observer.update, bind at 1 in H.
  destruct (setattr_loop_spec o (Subject.get_vars_of (subject st))
              (set_calls (λ l, l ++ [Call o "update"
                 [AObj o; AData (Subject.get_vars_of (subject st))]]) st))
    as (st2 & H2 & _ & _ & _ & Hself & _).
  rewrite H2 in H.
  assert (lookup_attr (heap st2) o "on_change" = Some (AVal w)) as Hl.
  { apply lookup_attr_own. rewrite Hself. apply assign_all_lookup_agree; [done|].
    right. apply list_elem_of_fmap. by exists ("on_change", w). }
  unfold bind, getattr, log_call, modify in H. rewrite Hl in H. simpl in H.
  discriminate.
Qed.

(** X10.  The observers are classes, so what [update] writes on the base
    class [Observer] is seen through every subclass that holds no value of
    its own: once a notification that reached [Observer] has ended
    normally, reading a public attribute of the subject on such a subclass
    gives the subject's value, registered or not. *)
Theorem base_class_attributes_are_inherited (st st' : state) (c : cls) (name : string) (w : value) :
  Subject.notify st = (Ok tt, st') →
  ClassObj Observer ∈ _observers (subject st) →
  startswith_underscore name = false →
  dict_get name (vars (subject st)) = Some w →
  attrs_of (heap st') (ClassObj c) !! name = None →
  lookup_attr (heap st') (ClassObj c) name = Some (AVal w).
Proof.
  intros H Hin Hpub Hw Hown.
  assert ((name, w) ∈ Subject.get_vars_of (subject st)) as Hsnap
    by (by apply get_vars_of_elem).
  unfold Subject.notify, bind, gets in H.
  assert (name ≠ "on_change") as Hne.
  { intros ->. clear Hown.
    assert (∀ l st, for_each l Subject.notify_body st = (Ok tt, st') →
              ("on_change", w) ∈ Subject.get_vars_of (subject st) →
              l = []) as Hloop.
    { clear. intros [|o l] st H Hsnap; [done|]. simpl in H.
      apply bind_inv in H as [([] & st1 & H1 & _)|(e & _ & ?)]; [|done].
      by destruct (notify_body_Ok_on_change _ _ _ _ H1 Hsnap). }
    rewrite (Hloop _ _ H Hsnap) in Hin. by apply elem_of_nil in Hin. }
  assert (attrs_of (heap st') (ClassObj Observer) !! name = Some w) as Hbase.
  { eapply notify_loop_holds; [exact H| | |by left].
    - intros w' Hw'. apply get_vars_of_elem in Hw' as [_ Hw']. congruence.
    - apply list_elem_of_fmap. by exists (name, w). }
  destruct c; simpl; unfold class_dict_get; rewrite ?Hown, ?Hbase; simpl;
    try congruence;
    by rewrite decide_False by done.
Qed.

Lemma base_class_attributes_are_inherited_witness :
  Subject.notify base_class_registered = (Ok tt, (Subject.notify base_class_registered).2) ∧
  attrs_of (heap (Subject.notify base_class_registered).2) (ClassObj CpuController) !! "temp"
  = None ∧
  lookup_attr (heap (Subject.notify base_class_registered).2) (ClassObj CpuController) "temp"
  = Some (AVal (VInt 42)).
Proof.
  assert (Subject.notify base_class_registered
          = (Ok tt, (Subject.notify base_class_registered).2)) as Hrun
    by (vm_compute; reflexivity).
  assert (attrs_of (heap (Subject.notify base_class_registered).2)
            (ClassObj CpuController) !! "temp" = None) as Hown
    by (vm_compute; reflexivity).
  split; [exact Hrun|]. split; [exact Hown|].
  apply (base_class_attributes_are_inherited _ _ CpuController "temp" (VInt 42) Hrun).
  - vm_compute. apply list_elem_of_In. simpl. auto.
  - reflexivity.
  - vm_compute; reflexivity.
  - exact Hown.
Defined.

(** ** Notifying again *)

Lemma assign_all_lookup (data : snapshot) m name :
  assign_all data m !! name
  = match dict_last name data with Some v => Some v | None => m !! name end.
Proof.
  revert m. induction data as [|[k w] data IH]; intros m; simpl; [done|].
  rewrite IH. destruct (dict_last name data); [done|].
  destruct (decide (k = name)) as [->|Hne].
  - by rewrite lookup_insert_eq.
  - by rewrite lookup_insert_ne.
Qed.

(** Copying the same snapshot a second time changes nothing. *)
Lemma assign_all_twice (data : snapshot) m :
  assign_all data (assign_all data m) = assign_all data m.
Proof.
  apply map_eq. intros name. rewrite !assign_all_lookup.
  by destruct (dict_last name data).
Qed.

Lemma dict_set_twice {V} key (v : V) d :
  dict_set key v (dict_set key v d) = dict_set key v d.
Proof.
  induction d as [|[k w] d IH]; simpl.
  - by rewrite decide_True.
  - destruct (decide (k = key)) as [->|Hne]; simpl.
    + by rewrite decide_True.
    + rewrite decide_False by done. by rewrite IH.
Qed.

(** After a run of the loop that ended normally, every object of the list
    holds the snapshot already. *)
Lemma notify_loop_saturates l st st' :
  for_each l Subject.notify_body st = (Ok tt, st') →
  ∀ o, o ∈ l ∨ assign_all (Subject.get_vars_of (subject st)) (attrs_of (heap st) o)
               = attrs_of (heap st) o →
       assign_all (Subject.get_vars_of (subject st)) (attrs_of (heap st') o)
       = attrs_of (heap st') o.
Proof.
  revert st. induction l as [|o1 l IH]; intros st H o Ho; simpl in H.
  - injection H as <-. destruct Ho as [Ho|Ho]; [by apply elem_of_nil in Ho|done].
  - apply bind_inv in H as [([] & st1 & H1 & H)|(e & _ & ?)]; [|done].
    pose proof (keeps_eq subject _ _ _ _ (notify_body_keeps_subject o1) H1) as Hs.
    rewrite <- Hs. eapply IH; [exact H|]. rewrite Hs.
    apply notify_body_heap in H1 as (Hother & Hself & HOk).
    destruct (decide (o = o1)) as [->|Hne].
    + right. rewrite HOk by done. apply assign_all_twice.
    + rewrite Hother by done.
      destruct Ho as [[?|Ho]%elem_of_cons|Ho]; [done|by left|by right].
Qed.

(** A run of the loop over objects that hold the snapshot already leaves
    every attribute of every object as it is, however it ends. *)
Lemma notify_loop_saturated l st r st' :
  for_each l Subject.notify_body st = (r, st') →
  (∀ o, o ∈ l →
        assign_all (Subject.get_vars_of (subject st)) (attrs_of (heap st) o)
        = attrs_of (heap st) o) →
  ∀ o, attrs_of (heap st') o = attrs_of (heap st) o.
Proof.
  revert st. induction l as [|o1 l IH]; intros st H Hsat o; simpl in H.
  - by injection H as <- <-.
  - assert (∀ r1 st1, Subject.notify_body o1 st = (r1, st1) →
              ∀ o, attrs_of (heap st1) o = attrs_of (heap st) o) as Hstep.
    { intros r1 st1 H1 o'. apply notify_body_heap in H1 as (Hother & Hself & _).
      destruct (decide (o' = o1)) as [->|Hne]; [|by apply Hother].
      destruct Hself as [-> | ->]; [done|]. apply Hsat. by left. }
    apply bind_inv in H as [([] & st1 & H1 & H)|(e & H1 & _)]; [|by eapply Hstep].
    pose proof (keeps_eq subject _ _ _ _ (notify_body_keeps_subject o1) H1) as Hs.
    rewrite <- (Hstep _ _ H1 o). eapply IH; [exact H|].
    intros o' Ho'. rewrite Hs, !(Hstep _ _ H1 o'). apply Hsat. by right.
Qed.

(** X9.  Notifying again without a change teaches the observers nothing:
    after a [change_measurements(v)] that ended normally, a second
    [change_measurements(v)], or a bare [notify()], leaves the sensor and
    every attribute of every observer as they are, however it ends.  Only
    the console and the call log grow. *)
Theorem repeated_reading_changes_no_attribute (v : value) (st st1 : state) :
  CpuSensor.change_measurements v st = (Ok tt, st1) →
  subject (CpuSensor.change_measurements v st1).2 = subject st1 ∧
  subject (Subject.notify st1).2 = subject st1 ∧
  ∀ o, attrs_of (heap (CpuSensor.change_measurements v st1).2) o = attrs_of (heap st1) o ∧
       attrs_of (heap (Subject.notify st1).2) o = attrs_of (heap st1) o.
Proof.
  intros H.
  pose proof (change_measurements_subject v st) as Hs. rewrite H in Hs. simpl in Hs.
  apply change_measurements_loop in H. cbv zeta in H.
  destruct H as [(_ & ? & _)|[Hnone Hloop]]; [done|].
  assert (set_subject (λ s, mkSubject (_observers s) (dict_set "temp" v (vars s))) st1
          = st1) as Hsame.
  { destruct st1 as [s1 h1 out1 cs1]. unfold set_subject. simpl in *.
    rewrite Hs. simpl. by rewrite dict_set_twice. }
  assert (∀ o, o ∈ _observers (subject st1) →
            assign_all (Subject.get_vars_of (subject st1)) (attrs_of (heap st1) o)
            = attrs_of (heap st1) o) as Hsat.
  { intros o Ho.
    set (st0 := set_subject _ st) in Hloop.
    pose proof (keeps_eq subject _ _ _ _
                  (keeps_for_each subject _ _ notify_body_keeps_subject) Hloop) as Hs0.
    rewrite Hs0. eapply notify_loop_saturates; [exact Hloop|left].
    by rewrite Hs in Ho. }
  assert (∀ o, attrs_of (heap (Subject.notify st1).2) o = attrs_of (heap st1) o) as Hn.
  { intros o. destruct (Subject.notify st1) as [r st2] eqn:H2. simpl.
    unfold Subject.notify, bind, gets in H2.
    by eapply notify_loop_saturated. }
  split; [|split; [apply notify_keeps_subject|]].
  - rewrite change_measurements_subject, Hs. simpl. by rewrite dict_set_twice.
  - intros o. split; [|apply Hn].
    rewrite change_measurements_run_eq. cbv zeta. rewrite Hsame.
    assert (dict_get "notify" (vars (subject st1)) = None) as ->.
    { rewrite Hs. simpl. by rewrite dict_get_set_ne. }
    apply Hn.
Qed.

Lemma repeated_reading_changes_no_attribute_witness :
  CpuSensor.change_measurements (VInt 95) driver_setup = (Ok tt, driver_after_95) ∧
  attrs_of (heap (CpuSensor.change_measurements (VInt 95) driver_after_95).2)
    (ClassObj TempDisplay)
  = attrs_of (heap driver_after_95) (ClassObj TempDisplay).
Proof.
  assert (CpuSensor.change_measurements (VInt 95) driver_setup = (Ok tt, driver_after_95))
    as Hrun by (vm_compute; reflexivity).
  split; [exact Hrun|].
  apply (repeated_reading_changes_no_attribute (VInt 95) driver_setup driver_after_95 Hrun).
Defined.

(** ** What the registry operations spare *)

(** X11.  [register(o)] and [remove(o)] concern [o] alone: whether they end
    normally or not, the other entries of the registry stay, in the same
    order and as many times as before, and [register(o)] adds one
    registration of [o]; neither touches the sensor's other attributes,
    the observers' attributes, the console or the log. *)
Theorem registry_operations_spare_the_others (o : obj) (st : state) :
  filter (λ x, x ≠ o) (_observers (subject (Subject.register o st).2))
  = filter (λ x, x ≠ o) (_observers (subject st)) ∧
  filter (λ x, x ≠ o) (_observers (subject (Subject.remove o st).2))
  = filter (λ x, x ≠ o) (_observers (subject st)) ∧
  (∀ o', o' ≠ o →
     registrations o' (subject (Subject.register o st).2) = registrations o' (subject st) ∧
     registrations o' (subject (Subject.remove o st).2) = registrations o' (subject st)) ∧
  registrations o (subject (Subject.register o st).2) = S (registrations o (subject st)) ∧
  set_subject (λ _, subject st) (Subject.remove o st).2 = st ∧
  set_subject (λ _, subject st) (Subject.register o st).2 = st ∧
  vars (subject (Subject.remove o st).2) = vars (subject st) ∧
  vars (subject (Subject.register o st).2) = vars (subject st).
Proof.
  assert (∀ o', filter (λ x, x = o') (_observers (subject (Subject.remove o st).2))
                = filter (λ x, x = o') (_observers (subject st)) ∨ o' = o) as Hrm.
  { intros o'. pose proof (remove_spec o st) as Hr.
    destruct (list_remove o _) as [l|] eqn:Hl; rewrite Hr; [|by left].
    apply list_remove_Some in Hl as (l1 & l2 & -> & _ & ->).
    cbn [snd subject set_subject _observers].
    destruct (decide (o' = o)) as [->|Hne]; [by right|left].
    rewrite !filter_app, filter_cons. by rewrite decide_False by done. }
  assert (_observers (subject (Subject.register o st).2) = _observers (subject st) ++ [o])
    as Hreg by done.
  split; [|split; [|split; [|split; [|split; [|split; [|split]]]]]].
  - rewrite Hreg, filter_app, filter_cons, filter_nil.
    rewrite decide_False by (intros Hne; by apply Hne). by rewrite app_nil_r.
  - pose proof (remove_spec o st) as Hr.
    destruct (list_remove o _) as [l|] eqn:Hl; rewrite Hr; [|done].
    apply list_remove_Some in Hl as (l1 & l2 & -> & _ & ->).
    cbn [snd subject set_subject _observers].
    rewrite !filter_app, filter_cons.
    by rewrite decide_False by (intros Hne; by apply Hne).
  - intros o' Hne. unfold registrations. split.
    + rewrite Hreg, filter_app, filter_cons, filter_nil.
      rewrite decide_False by done. by rewrite app_nil_r.
    + by destruct (Hrm o') as [-> | ?].
  - unfold registrations. rewrite Hreg, filter_app, filter_cons, filter_nil.
    rewrite decide_True by done. rewrite length_app. simpl. lia.
  - pose proof (remove_spec o st) as Hr.
    destruct (list_remove o _) as [l|]; rewrite Hr; by destruct st.
  - by destruct st.
  - apply remove_vars.
  - done.
Qed.

Lemma registry_operations_spare_the_others_witness :
  ClassObj TempDisplay ≠ ClassObj CpuController ∧
  registrations (ClassObj TempDisplay)
    (subject (Subject.remove (ClassObj CpuController) driver_setup).2)
  = registrations (ClassObj TempDisplay) (subject driver_setup) ∧
  filter (λ x, x ≠ ClassObj CpuController)
    (_observers (subject (Subject.remove (ClassObj CpuController) driver_setup).2))
  = [ClassObj TempDisplay].
Proof.
  assert (ClassObj TempDisplay ≠ ClassObj CpuController) as Hne by discriminate.
  destruct (registry_operations_spare_the_others (ClassObj CpuController) driver_setup)
    as (_ & Hrm & Hothers & _).
  split; [exact Hne|]. split; [by apply (Hothers _ Hne)|].
  rewrite Hrm. vm_compute; reflexivity.
Defined.

(** ** The sensor's own attributes *)

Lemma dict_set_keys {V} key (v : V) d :
  (dict_set key v d).*1 = if decide (key ∈ d.*1) then d.*1 else d.*1 ++ [key].
Proof.
  induction d as [|[k w] d IH].
  - destruct (decide (key ∈ [].*1)) as [Hin|Hn]; [|done].
    by apply elem_of_nil in Hin.
  - change (((k, w) :: d).*1) with (k :: d.*1).
    change (dict_set key v ((k, w) :: d))
      with (if decide (k = key) then (k, v) :: d else (k, w) :: dict_set key v d).
    destruct (decide (k = key)) as [->|Hne].
    + destruct (decide (key ∈ key :: d.*1)) as [Hin|Hn]; [done|].
      exfalso. apply Hn. by left.
    + change (((k, w) :: dict_set key v d).*1) with (k :: (dict_set key v d).*1).
      rewrite IH.
      destruct (decide (key ∈ d.*1)) as [Hin|Hn],
               (decide (key ∈ k :: d.*1)) as [Hin'|Hn']; try done.
      * exfalso. apply Hn'. by right.
      * apply elem_of_cons in Hin' as [?|?]; [by subst|done].
Qed.

(** X12.  Used through its methods, the sensor keeps its attribute names
    distinct and in place: whatever the operations and however they end,
    the names it had stay in the same order, and the only name that can
    join them is [temp], once, at the end. *)
Theorem sensor_attribute_names_are_stable (ops : list op) (st : state) :
  NoDup (vars (subject st)).*1 →
  NoDup (vars (subject (run_ops ops st))).*1 ∧
  ((vars (subject (run_ops ops st))).*1 = (vars (subject st)).*1
   ∨ (("temp" ∉ (vars (subject st)).*1) ∧
      (vars (subject (run_ops ops st))).*1 = (vars (subject st)).*1 ++ ["temp"])).
Proof.
  revert st. induction ops as [|p ops IH]; intros st Hnd; simpl.
  - split; [done|by left].
  - assert (NoDup (vars (subject (run_op p st).2)).*1 ∧
            ((vars (subject (run_op p st).2)).*1 = (vars (subject st)).*1
             ∨ (("temp" ∉ (vars (subject st)).*1) ∧
                (vars (subject (run_op p st).2)).*1 = (vars (subject st)).*1 ++ ["temp"])))
      as [Hnd1 Hk1].
    { destruct (run_op_subject p st) as [-> | (v & _ & ->)]; [by split; [|left]|].
      split; [by apply dict_set_keys_NoDup|]. rewrite dict_set_keys.
      destruct (decide ("temp" ∈ (vars (subject st)).*1)); [by left|by right]. }
    destruct (IH _ Hnd1) as [Hnd' Hk']. split; [done|].
    destruct Hk1 as [Hk1|[Hn1 Hk1]].
    + rewrite Hk1 in Hk'. exact Hk'.
    + right. split; [done|].
      destruct Hk' as [Hk'|[Hn' Hk']]; [by rewrite Hk'|].
      exfalso. apply Hn'. rewrite Hk1. apply elem_of_app. right. by left.
Qed.

Lemma sensor_attribute_names_are_stable_witness :
  NoDup (vars (subject driver_setup)).*1 ∧
  NoDup (vars (subject (run_ops [OpChange (VInt 60); OpNotify; OpChange (VStr "hot")]
                          driver_setup))).*1.
Proof.
  assert (NoDup (vars (subject driver_setup)).*1) as Hnd by apply NoDup_nil_2.
  split; [exact Hnd|].
  apply (sensor_attribute_names_are_stable _ driver_setup Hnd).
Defined.
